(** * SH-2 HAL over I2C (sh2_hal_i2c.c): shallow embedding and properties

    The C file keeps its state in file-scope globals and talks to three
    collaborators: FreeRTOS (mutex, binary semaphores, event queue, delays),
    the STM32 I2C driver (interrupt driven transfers with completion
    callbacks) and GPIO.  The embedding threads the globals through an
    explicit state, records every call into a collaborator as an [Action]
    in a trace, and represents a call that never comes back (a task
    suspended for ever, a call through a null function pointer) by [Stuck]. *)

From Stdlib Require Import ZArith List Bool Lia.
From Stdlib Require Import Strings.Byte.
From stdpp Require Import base list.
Import ListNotations.

Local Open Scope Z_scope.

(** ** Constants of the translation unit *)

Definition DFU_BOOT_DELAY : Z := 200.
Definition RESET_DELAY : Z := 10.
Definition MAX_EVENTS : Z := 16.
Definition SHTP_HEADER_LEN : Z := 4.

Definition ADDR_DFU_0 : Z := 0x28.
Definition ADDR_DFU_1 : Z := 0x29.
Definition ADDR_SH2_0 : Z := 0x4A.
Definition ADDR_SH2_1 : Z := 0x4B.

(** Constants that come from headers outside the translation unit
    (sh2_hal.h, sh2_err.h): unit count, transfer size, status codes. *)
Class Platform : Type := {
  SH2_UNITS : N;
  SH2_HAL_MAX_TRANSFER : Z;
  SH2_OK : Z;
  SH2_ERR_BAD_PARAM : Z;
  SH2_ERR_IO : Z
}.

(** Fixed-width arithmetic: [unsigned]/[uint32_t] and [uint16_t]. *)
Definition wrap32 (x : Z) : Z := x mod 2 ^ 32.
Definition wrap16 (x : Z) : Z := x mod 2 ^ 16.

Definition byteZ (b : byte) : Z := Z.of_N (Byte.to_N b).

(** ** Data model *)

(** The two control lines of unit 0 (PB4 and PB5). *)
Inductive GpioPin : Type := RSTN_PIN | BOOTN_PIN.

(** Targets of the [rstn]/[bootn] function pointers. *)
Inductive GpioFn : Type := rstn0 | bootn0.

(** Completion interrupts of the I2C driver. *)
Inductive I2cIrq : Type := MasterTxCplt | MasterRxCplt | ErrorIrq.

(** What the bus does with one transfer request: the value returned by
    [HAL_I2C_Master_*_IT], the interrupt that ends the transfer (if one
    ever comes) and, for a read, the bytes the driver stores. *)
Record BusReply : Type := {
  rc : Z;
  irq : option I2cIrq;
  rxData : list byte
}.

(** Calls into the collaborators, in the order they are made. *)
Inductive Action : Type :=
| MutexTake
| MutexGive
| I2cDeInit
| I2cInit
| I2cReceiveIT (dev : Z) (len : Z)
| I2cTransmitIT (dev : Z) (data : list byte) (len : Z)
| GpioWritePin (pin : GpioPin) (level : bool)
| TaskDelay (ms : Z)
| OnRx (unit : N) (fn cookie : Z) (buf : list byte) (len t_us : Z).

(** [Sh2_t]; a null function pointer is [None], [onRx] and the cookie are
    pointer values with 0 for null, [blockSem] holds whether the binary
    semaphore has a token. *)
Record Sh2_t : Type := {
  rstn : option GpioFn;
  bootn : option GpioFn;
  onRx : Z;
  onRxCookie : Z;
  addr : Z;
  rxBuf : list byte;
  rxRemaining : Z;
  blockSem : bool
}.

Definition EVT_INTN : Z := 0.

Record Event_t : Type := {
  t_ms : Z;
  id : Z;
  unit : N
}.

(** The file-scope variables.  [i2cMutex] is true while a task holds the
    mutex, [i2cBlockSem] is true while the semaphore has a token. *)
Record Hal : Type := {
  i2cMutex : bool;
  i2cBlockSem : bool;
  i2cStatus : Z;
  i2cResetNeeded : bool;
  evtQueue : list Event_t;
  sh2 : list Sh2_t
}.

Definition set_i2cMutex (v : bool) (s : Hal) : Hal :=
  {| i2cMutex := v; i2cBlockSem := i2cBlockSem s; i2cStatus := i2cStatus s;
     i2cResetNeeded := i2cResetNeeded s; evtQueue := evtQueue s; sh2 := sh2 s |}.
Definition set_i2cBlockSem (v : bool) (s : Hal) : Hal :=
  {| i2cMutex := i2cMutex s; i2cBlockSem := v; i2cStatus := i2cStatus s;
     i2cResetNeeded := i2cResetNeeded s; evtQueue := evtQueue s; sh2 := sh2 s |}.
Definition set_i2cStatus (v : Z) (s : Hal) : Hal :=
  {| i2cMutex := i2cMutex s; i2cBlockSem := i2cBlockSem s; i2cStatus := v;
     i2cResetNeeded := i2cResetNeeded s; evtQueue := evtQueue s; sh2 := sh2 s |}.
Definition set_i2cResetNeeded (v : bool) (s : Hal) : Hal :=
  {| i2cMutex := i2cMutex s; i2cBlockSem := i2cBlockSem s; i2cStatus := i2cStatus s;
     i2cResetNeeded := v; evtQueue := evtQueue s; sh2 := sh2 s |}.
Definition set_evtQueue (v : list Event_t) (s : Hal) : Hal :=
  {| i2cMutex := i2cMutex s; i2cBlockSem := i2cBlockSem s; i2cStatus := i2cStatus s;
     i2cResetNeeded := i2cResetNeeded s; evtQueue := v; sh2 := sh2 s |}.
Definition set_sh2 (v : list Sh2_t) (s : Hal) : Hal :=
  {| i2cMutex := i2cMutex s; i2cBlockSem := i2cBlockSem s; i2cStatus := i2cStatus s;
     i2cResetNeeded := i2cResetNeeded s; evtQueue := evtQueue s; sh2 := v |}.

Definition set_onRx (v : Z) (u : Sh2_t) : Sh2_t :=
  {| rstn := rstn u; bootn := bootn u; onRx := v; onRxCookie := onRxCookie u;
     addr := addr u; rxBuf := rxBuf u; rxRemaining := rxRemaining u;
     blockSem := blockSem u |}.
Definition set_onRxCookie (v : Z) (u : Sh2_t) : Sh2_t :=
  {| rstn := rstn u; bootn := bootn u; onRx := onRx u; onRxCookie := v;
     addr := addr u; rxBuf := rxBuf u; rxRemaining := rxRemaining u;
     blockSem := blockSem u |}.
Definition set_addr (v : Z) (u : Sh2_t) : Sh2_t :=
  {| rstn := rstn u; bootn := bootn u; onRx := onRx u; onRxCookie := onRxCookie u;
     addr := v; rxBuf := rxBuf u; rxRemaining := rxRemaining u;
     blockSem := blockSem u |}.
Definition set_rxBuf (v : list byte) (u : Sh2_t) : Sh2_t :=
  {| rstn := rstn u; bootn := bootn u; onRx := onRx u; onRxCookie := onRxCookie u;
     addr := addr u; rxBuf := v; rxRemaining := rxRemaining u;
     blockSem := blockSem u |}.
Definition set_rxRemaining (v : Z) (u : Sh2_t) : Sh2_t :=
  {| rstn := rstn u; bootn := bootn u; onRx := onRx u; onRxCookie := onRxCookie u;
     addr := addr u; rxBuf := rxBuf u; rxRemaining := v;
     blockSem := blockSem u |}.
Definition set_blockSem (v : bool) (u : Sh2_t) : Sh2_t :=
  {| rstn := rstn u; bootn := bootn u; onRx := onRx u; onRxCookie := onRxCookie u;
     addr := addr u; rxBuf := rxBuf u; rxRemaining := rxRemaining u;
     blockSem := v |}.
Definition set_rstn (v : option GpioFn) (u : Sh2_t) : Sh2_t :=
  {| rstn := v; bootn := bootn u; onRx := onRx u; onRxCookie := onRxCookie u;
     addr := addr u; rxBuf := rxBuf u; rxRemaining := rxRemaining u;
     blockSem := blockSem u |}.
Definition set_bootn (v : option GpioFn) (u : Sh2_t) : Sh2_t :=
  {| rstn := rstn u; bootn := v; onRx := onRx u; onRxCookie := onRxCookie u;
     addr := addr u; rxBuf := rxBuf u; rxRemaining := rxRemaining u;
     blockSem := blockSem u |}.

(** ** Computations: state, trace, and calls that do not come back *)

Inductive Halt : Type :=
| Blocked   (* suspended with portMAX_DELAY and nobody left to wake it *)
| Fault.    (* call through a null pointer or access outside [sh2] *)

Inductive Res (A : Type) : Type :=
| Done (tr : list Action) (a : A) (s : Hal)
| Stuck (why : Halt) (tr : list Action) (s : Hal).
Arguments Done {A} tr a s.
Arguments Stuck {A} why tr s.

Definition M (A : Type) : Type := Hal -> Res A.

Definition ret {A} (a : A) : M A := fun s => Done [] a s.

Definition bind {A B} (m : M A) (k : A -> M B) : M B :=
  fun s =>
    match m s with
    | Done tr a s1 =>
        match k a s1 with
        | Done tr' b s2 => Done (tr ++ tr') b s2
        | Stuck w tr' s2 => Stuck w (tr ++ tr') s2
        end
    | Stuck w tr s1 => Stuck w tr s1
    end.

Declare Scope hal_scope.
Delimit Scope hal_scope with hal.
Notation "x <- m ;; k" := (bind m (fun x => k))
  (at level 100, m at next level, right associativity) : hal_scope.
Notation "m ;; k" := (bind m (fun _ => k))
  (at level 100, right associativity) : hal_scope.
Local Open Scope hal_scope.

Definition emit (a : Action) : M () := fun s => Done [a] tt s.
Definition gets {A} (f : Hal -> A) : M A := fun s => Done [] (f s) s.
Definition modify (f : Hal -> Hal) : M () := fun s => Done [] tt (f s).
Definition halt {A} (w : Halt) : M A := fun s => Stuck w [] s.

Definition res_trace {A} (r : Res A) : list Action :=
  match r with Done tr _ _ => tr | Stuck _ tr _ => tr end.
Definition res_state {A} (r : Res A) : Hal :=
  match r with Done _ _ s => s | Stuck _ _ s => s end.

Definition is_transfer (a : Action) : bool :=
  match a with I2cReceiveIT _ _ | I2cTransmitIT _ _ _ => true | _ => false end.
Definition is_reinit (a : Action) : bool :=
  match a with I2cDeInit | I2cInit => true | _ => false end.

(** ** The translation unit *)

Section Hal_model.
Context `{P : Platform}.

(** *** FreeRTOS primitives on the objects of this file *)

(** [xSemaphoreTake(i2cMutex, portMAX_DELAY)]: with the mutex held, the
    caller waits for an owner that is not going to run. *)
Definition xSemaphoreTake_i2cMutex : M () :=
  fun s =>
    if i2cMutex s then Stuck Blocked [] s
    else Done [MutexTake] tt (set_i2cMutex true s).

Definition xSemaphoreGive_i2cMutex : M () :=
  emit MutexGive ;; modify (set_i2cMutex false).

Definition xSemaphoreTake_i2cBlockSem : M () :=
  fun s =>
    if i2cBlockSem s then Done [] tt (set_i2cBlockSem false s)
    else Stuck Blocked [] s.

Definition vTaskDelay (ms : Z) : M () := emit (TaskDelay ms).

(** [xQueueReceive(evtQueue, &event, portMAX_DELAY)]. *)
Definition xQueueReceive : M Event_t :=
  fun s =>
    match evtQueue s with
    | [] => Stuck Blocked [] s
    | e :: q => Done [] e (set_evtQueue q s)
    end.

(** [xQueueSendFromISR]: a full queue refuses the item. *)
Definition xQueueSendFromISR (e : Event_t) : M () :=
  modify (fun s =>
    if Z.of_nat (length (evtQueue s)) <? MAX_EVENTS
    then set_evtQueue (evtQueue s ++ [e]) s
    else s).

(** *** Access to [sh2[unit]] *)

Definition sh2_get (unit : N) : M Sh2_t :=
  fun s =>
    match sh2 s !! N.to_nat unit with
    | Some u => Done [] u s
    | None => Stuck Fault [] s
    end.

Definition sh2_set (unit : N) (f : Sh2_t -> Sh2_t) : M () :=
  u <- sh2_get unit ;;
  modify (fun s => set_sh2 (<[N.to_nat unit := f u]> (sh2 s)) s).

(** *** GPIO *)

Definition HAL_GPIO_WritePin (pin : GpioPin) (level : bool) : M () :=
  emit (GpioWritePin pin level).

Definition call_GpioFn (f : GpioFn) (state : bool) : M () :=
  match f with
  | rstn0 => HAL_GPIO_WritePin RSTN_PIN state
  | bootn0 => HAL_GPIO_WritePin BOOTN_PIN state
  end.

(** A call through [sh2[unit].rstn] or [sh2[unit].bootn]. *)
Definition call_ptr (p : option GpioFn) (state : bool) : M () :=
  match p with
  | Some f => call_GpioFn f state
  | None => halt Fault
  end.

(** *** Callbacks run from interrupt context *)

Definition HAL_GPIO_EXTI_Callback (n : Z) (xTaskGetTickCount : Z) : M () :=
  let event := {| t_ms := xTaskGetTickCount; id := EVT_INTN; unit := 0%N |} in
  xQueueSendFromISR event.

Definition HAL_I2C_MasterTxCpltCallback : M () :=
  modify (set_i2cStatus SH2_OK) ;; modify (set_i2cBlockSem true).

Definition HAL_I2C_MasterRxCpltCallback : M () :=
  modify (set_i2cStatus SH2_OK) ;; modify (set_i2cBlockSem true).

Definition HAL_I2C_ErrorCallback : M () :=
  modify (set_i2cStatus SH2_ERR_IO) ;; modify (set_i2cBlockSem true).

Definition run_irq (q : I2cIrq) : M () :=
  match q with
  | MasterTxCplt => HAL_I2C_MasterTxCpltCallback
  | MasterRxCplt => HAL_I2C_MasterRxCpltCallback
  | ErrorIrq => HAL_I2C_ErrorCallback
  end.

(** [xSemaphoreTake(i2cBlockSem, portMAX_DELAY)] after a transfer was
    started: the interrupt of the reply, if there is one, runs while the
    task waits. *)
Definition await_i2cBlockSem (q : option I2cIrq) : M () :=
  match q with Some i => run_irq i | None => ret tt end ;;
  xSemaphoreTake_i2cBlockSem.

(** *** Private functions *)

Definition i2cReset : M () :=
  emit I2cDeInit ;;
  emit I2cInit ;;
  modify (set_i2cResetNeeded false).

(** The driver stores at most [len] received bytes at the start of the
    caller's buffer. *)
Definition store_rx (data : list byte) (len : Z) (pData : list byte) : list byte :=
  let new := take (Z.to_nat len) data in
  take (length pData) (new ++ drop (length new) pData).

Definition i2cBlockingRx (addr : Z) (pData : list byte) (len : Z) (r : BusReply)
  : M (Z * list byte) :=
  xSemaphoreTake_i2cMutex ;;
  need <- gets i2cResetNeeded ;;
  (if need : bool then i2cReset else ret tt) ;;
  emit (I2cReceiveIT addr len) ;;
  res <- (if rc r =? 0 then
            await_i2cBlockSem (irq r) ;;
            status <- gets i2cStatus ;;
            ret (status, store_rx (rxData r) len pData)
          else
            ret (SH2_ERR_IO, pData)) ;;
  xSemaphoreGive_i2cMutex ;;
  ret res.

Definition i2cBlockingTx (addr : Z) (pData : list byte) (len : Z) (r : BusReply)
  : M Z :=
  xSemaphoreTake_i2cMutex ;;
  need <- gets i2cResetNeeded ;;
  (if need : bool then i2cReset else ret tt) ;;
  emit (I2cTransmitIT addr pData len) ;;
  status <- (if rc r =? 0 then
               await_i2cBlockSem (irq r) ;;
               gets i2cStatus
             else
               ret SH2_ERR_IO) ;;
  xSemaphoreGive_i2cMutex ;;
  ret status.

(** *** Public API *)

(** The address assignment of [sh2_hal_reset]. *)
Definition unit_addr (unit : N) (dfuMode : bool) : Z :=
  if (unit =? 1)%N then
    if dfuMode then Z.shiftl ADDR_DFU_1 1 else Z.shiftl ADDR_SH2_1 1
  else
    if dfuMode then Z.shiftl ADDR_DFU_0 1 else Z.shiftl ADDR_SH2_0 1.

Definition sh2_hal_reset (unit : N) (dfuMode : bool) (onRx cookie : Z) : M Z :=
  if (SH2_UNITS <=? unit)%N then ret SH2_ERR_BAD_PARAM
  else
    xSemaphoreTake_i2cMutex ;;
    sh2_set unit (set_onRxCookie cookie) ;;
    sh2_set unit (set_onRx onRx) ;;
    sh2_set unit (set_addr (wrap16 (unit_addr unit dfuMode))) ;;
    u <- sh2_get unit ;;
    call_ptr (rstn u) false ;;
    u <- sh2_get unit ;;
    call_ptr (bootn u) (negb dfuMode) ;;
    vTaskDelay RESET_DELAY ;;
    u <- sh2_get unit ;;
    call_ptr (rstn u) true ;;
    (if dfuMode then vTaskDelay DFU_BOOT_DELAY else ret tt) ;;
    modify (set_i2cResetNeeded true) ;;
    xSemaphoreGive_i2cMutex ;;
    ret SH2_OK.

Definition sh2_hal_tx (unit : N) (pData : list byte) (len : Z) (r : BusReply) : M Z :=
  if (SH2_UNITS <=? unit)%N then ret SH2_ERR_BAD_PARAM
  else if len =? 0 then ret SH2_OK
  else
    u <- sh2_get unit ;;
    i2cBlockingTx (addr u) pData len r.

(** The caller's buffer comes back with the status. *)
Definition sh2_hal_rx (unit : N) (pData : list byte) (len : Z) (r : BusReply)
  : M (Z * list byte) :=
  if (SH2_UNITS <=? unit)%N then ret (SH2_ERR_BAD_PARAM, pData)
  else if len =? 0 then ret (SH2_OK, pData)
  else
    u <- sh2_get unit ;;
    i2cBlockingRx (addr u) pData len r.

Definition sh2_hal_block (unit : N) : M Z :=
  if (SH2_UNITS <=? unit)%N then ret SH2_ERR_BAD_PARAM
  else
    pSh2 <- sh2_get unit ;;
    (if blockSem pSh2 then sh2_set unit (set_blockSem false) else halt Blocked) ;;
    ret SH2_OK.

Definition sh2_hal_unblock (unit : N) : M Z :=
  if (SH2_UNITS <=? unit)%N then ret SH2_ERR_BAD_PARAM
  else
    sh2_set unit (set_blockSem true) ;;
    ret SH2_OK.

(** *** The worker task *)

(** Lines 351-359: the length of the next read. *)
Definition readLen_of (rxRemaining : Z) : Z :=
  let readLen := rxRemaining in
  let readLen := if readLen <? SHTP_HEADER_LEN then SHTP_HEADER_LEN else readLen in
  if SH2_HAL_MAX_TRANSFER <? readLen then SH2_HAL_MAX_TRANSFER else readLen.

(** Line 365: the cargo length in the SHTP header. *)
Definition cargoLen_of (rxBuf : list byte) : Z :=
  wrap32 (Z.land (Z.shiftl (byteZ (nth 1 rxBuf x00)) 8 + byteZ (nth 0 rxBuf x00))
                 (Z.lnot 0x8000)).

(** Lines 368-375: the new value of [rxRemaining]. *)
Definition rxRemaining_of (cargoLen readLen : Z) : Z :=
  if readLen <? cargoLen
  then wrap16 (wrap32 (wrap32 (cargoLen - readLen) + SHTP_HEADER_LEN))
  else 0.

(** The body of the loop for one received event. *)
Definition halTask_event (event : Event_t) (r : BusReply) : M () :=
  if (SH2_UNITS <=? unit event)%N then ret tt
  else
    pSh2 <- sh2_get (unit event) ;;
    if id event =? EVT_INTN then
      if negb (onRx pSh2 =? 0) then
        let readLen := readLen_of (rxRemaining pSh2) in
        res <- i2cBlockingRx (addr pSh2) (rxBuf pSh2) readLen r ;;
        sh2_set (unit event) (set_rxBuf (snd res)) ;;
        pSh2 <- sh2_get (unit event) ;;
        let cargoLen := cargoLen_of (rxBuf pSh2) in
        sh2_set (unit event) (set_rxRemaining (rxRemaining_of cargoLen readLen)) ;;
        pSh2 <- sh2_get (unit event) ;;
        emit (OnRx (unit event) (onRx pSh2) (onRxCookie pSh2) (rxBuf pSh2)
                   readLen (wrap32 (t_ms event * 1000)))
      else ret tt
    else ret tt.

(** One turn of [while (1)]. *)
Definition halTask_iter (r : BusReply) : M () :=
  event <- xQueueReceive ;;
  halTask_event event r.

(** As many turns as there are bus replies at hand. *)
Fixpoint halTask (rs : list BusReply) : M () :=
  match rs with
  | [] => ret tt
  | r :: rs' => halTask_iter r ;; halTask rs'
  end.

(** *** Initialisation *)

Definition sh2_zero : Sh2_t :=
  {| rstn := None; bootn := None; onRx := 0; onRxCookie := 0; addr := 0;
     rxBuf := replicate (Z.to_nat SH2_HAL_MAX_TRANSFER) x00;
     rxRemaining := 0; blockSem := false |}.

(** The globals as the C start-up code leaves them, before
    [sh2_hal_init]: everything is zero.  The mutex, the semaphores and the
    queue are not created yet (null handles), so a take of [i2cMutex] or
    of a semaphore does not come back and there is nothing to receive:
    [i2cMutex] is not takeable, the semaphores and the queue are empty. *)
Definition boot : Hal :=
  {| i2cMutex := true; i2cBlockSem := false; i2cStatus := 0;
     i2cResetNeeded := false; evtQueue := [];
     sh2 := replicate (N.to_nat SH2_UNITS) sh2_zero |}.

(** The indices [0 .. n-1] of a [for (unit = 0; unit < n; unit++)]. *)
Definition all_units (n : N) : list N := map N.of_nat (seq 0 (N.to_nat n)).

Fixpoint for_units (units : list N) (body : N -> M ()) : M () :=
  match units with
  | [] => ret tt
  | unit :: rest => body unit ;; for_units rest body
  end.

Definition sh2_hal_init : M () :=
  modify (set_i2cResetNeeded true) ;;
  for_units (all_units SH2_UNITS) (fun unit => sh2_set unit (fun _ => sh2_zero)) ;;
  sh2_set 0%N (set_rstn (Some rstn0)) ;;
  sh2_set 0%N (set_bootn (Some bootn0)) ;;
  for_units (all_units SH2_UNITS) (fun unit =>
    u <- sh2_get unit ;;
    call_ptr (rstn u) false ;;
    u <- sh2_get unit ;;
    call_ptr (bootn u) true) ;;
  modify (set_i2cMutex false) ;;
  modify (set_i2cBlockSem false) ;;
  modify (set_evtQueue []).

(** *** The environment's side of a transfer *)

(** The reply lets the call come back: the request is refused at once, or
    a completion interrupt arrives. *)
Definition answers (r : BusReply) : Prop := rc r <> 0 \/ irq r <> None.

(** The status that the callbacks of lines 283-320 leave in [i2cStatus]
    for a reply, [SH2_ERR_IO] of lines 414 and 447 for a refused request. *)
Definition reply_status (r : BusReply) : Z :=
  if rc r =? 0 then
    match irq r with
    | Some ErrorIrq => SH2_ERR_IO
    | _ => SH2_OK
    end
  else SH2_ERR_IO.

(** *** Sequences of calls

    What the rest of the firmware can do with this file once it is
    initialised: call the public API, raise the sensor interrupt, and let
    the worker task take one turn. *)
Inductive Call : Type :=
| CallReset (unit : N) (dfuMode : bool) (onRx cookie : Z)
| CallTx (unit : N) (pData : list byte) (len : Z) (r : BusReply)
| CallRx (unit : N) (pData : list byte) (len : Z) (r : BusReply)
| CallBlock (unit : N)
| CallUnblock (unit : N)
| Exti (n : Z) (tick : Z)
| Worker (r : BusReply).

Definition run_call (c : Call) : M () :=
  match c with
  | CallReset unit dfuMode onRx cookie =>
      sh2_hal_reset unit dfuMode onRx cookie ;; ret tt
  | CallTx unit pData len r => sh2_hal_tx unit pData len r ;; ret tt
  | CallRx unit pData len r => sh2_hal_rx unit pData len r ;; ret tt
  | CallBlock unit => sh2_hal_block unit ;; ret tt
  | CallUnblock unit => sh2_hal_unblock unit ;; ret tt
  | Exti n tick => HAL_GPIO_EXTI_Callback n tick
  | Worker r => halTask_iter r
  end.

Fixpoint run_calls (cs : list Call) : M () :=
  match cs with
  | [] => ret tt
  | c :: cs' => run_call c ;; run_calls cs'
  end.

Definition is_reset (c : Call) : bool :=
  match c with CallReset _ _ _ _ => true | _ => false end.

Definition resets_unit (unit : N) (c : Call) : bool :=
  match c with CallReset unit' _ _ _ => (unit' =? unit)%N | _ => false end.

End Hal_model.

(** The array [sh2] has its [SH2_UNITS] elements. *)
Definition units_allocated `{P : Platform} (s : Hal) : Prop :=
  length (sh2 s) = N.to_nat SH2_UNITS.

(** The call came back to its caller. *)
Definition returns {A} (r : Res A) : Prop :=
  match r with Done _ _ _ => True | Stuck _ _ _ => False end.

(** A configuration for concrete runs: one unit (the only one that
    [sh2_hal_init] gives control lines), 384-byte transfers, 0 for success
    and negative error codes. *)
Definition nucleo : Platform :=
  {| SH2_UNITS := 1%N; SH2_HAL_MAX_TRANSFER := 384;
     SH2_OK := 0; SH2_ERR_BAD_PARAM := -2; SH2_ERR_IO := -4 |}.

(** ** Properties of computations *)

(** [safe I Pa m]: started in a state that satisfies [I], the computation
    [m] halts or returns in a state that satisfies [I], and every action
    it makes satisfies [Pa]. *)
Definition safe {A} (I : Hal -> Prop) (Pa : Action -> Prop) (m : M A) : Prop :=
  forall s, I s -> I (res_state (m s)) /\ Forall Pa (res_trace (m s)).

(** A call that returns leaves the mutex as it found it. *)
Definition mutex_kept {A} (m : M A) : Prop :=
  forall s tr a s', m s = Done tr a s' -> i2cMutex s' = i2cMutex s.

(** A call that returns does so with [Q]. *)
Definition ends_with {A} (Q : A -> Hal -> Prop) (m : M A) : Prop :=
  forall s tr a s', m s = Done tr a s' -> Q a s'.

(** Actions of the bus primitive: the mutex, the peripheral, a transfer. *)
Definition bus_action (a : Action) : Prop :=
  match a with
  | MutexTake | MutexGive | I2cDeInit | I2cInit
  | I2cReceiveIT _ _ | I2cTransmitIT _ _ _ => True
  | _ => False
  end.

(** The unit's stored address is [a]. *)
Definition addr_is (unit : N) (a : Z) (s : Hal) : Prop :=
  exists u, sh2 s !! N.to_nat unit = Some u /\ addr u = a.

(** The peripheral is initialised. *)
Definition bus_is_fresh (s : Hal) : Prop := i2cResetNeeded s = false.

Definition not_reinit (a : Action) : Prop := is_reinit a = false.

(** Every queued event is an interrupt notification for unit 0. *)
Definition queue_for_unit0 (s : Hal) : Prop :=
  Forall (fun e => unit e = 0%N /\ id e = EVT_INTN) (evtQueue s).

(** A delivery to a receive callback is a delivery to unit 0's. *)
Definition delivers_to_unit0 (a : Action) : Prop :=
  match a with
  | OnRx unit _ _ _ _ _ => unit = 0%N
  | _ => True
  end.

(** The configuration after [sh2_hal_init] and a reset of unit 0 into
    normal mode that registers a callback. *)
Definition ready : Hal :=
  res_state (@sh2_hal_reset nucleo 0%N false 0x2000 7
               (res_state (@sh2_hal_init nucleo (@boot nucleo)))).

Definition ready_unit : Sh2_t := default (@sh2_zero nucleo) (sh2 ready !! 0%nat).

(** An interrupt event for unit 0 and two bus replies: a completed read
    of a header that announces 20 bytes, and a refused request. *)
Definition intn_event : Event_t := {| t_ms := 5; id := EVT_INTN; unit := 0%N |}.

Definition header20 : BusReply :=
  {| rc := 0; irq := Some MasterRxCplt; rxData := [x14; x00; x01; x02] |}.

Definition refused : BusReply := {| rc := 1; irq := None; rxData := [] |}.

(** ** The demo application (sensor_app.c)

    The parts of the application that are integer and control code: the
    two callbacks it registers with the SH-2 layer, one turn of the loop
    of [demoTaskStart] (in the default build: neither DSF_OUTPUT nor
    CONFIGURE_HMD defined), and the sample counter of [printDsf].  The
    event record [sh2_SensorEvent_t] and the event code [SH2_RESET] come
    from sh2.h, outside the repository's sources: the first is a type
    parameter, the second a parameter.  Printing and decoding a sensor
    event, configuring the hub and starting the reports are calls made in
    this order, recorded as [AppAction]s. *)

Section SensorApp.
Context {SensorEvent : Type}.
Variable SH2_RESET : Z.

Inductive AppAction : Type :=
| PrintReset                       (* printf("SH2 Reset.\n") *)
| PrintEvent (e : SensorEvent)     (* printEvent(&sensorEvent) *)
| ConfigureForDefault              (* configureForDefault() *)
| StartReports.                    (* startReports() *)

(** The file-scope variables, and the static counter of [demoTaskStart].
    [wakeSensorTask] is true while the binary semaphore has a token. *)
Record App : Type := {
  resetPerformed : bool;
  startedReports : bool;
  sensorReceived : bool;
  sensorEvent : SensorEvent;
  wakeSensorTask : bool;
  sensors : Z
}.

Definition eventHandler (eventId : Z) (a : App) : list AppAction * App :=
  if eventId =? SH2_RESET then
    ([PrintReset],
     {| resetPerformed := true; startedReports := startedReports a;
        sensorReceived := sensorReceived a; sensorEvent := sensorEvent a;
        wakeSensorTask := true; sensors := sensors a |})
  else ([], a).

Definition sensorHandler (pEvent : SensorEvent) (a : App) : App :=
  {| resetPerformed := resetPerformed a; startedReports := startedReports a;
     sensorReceived := true; sensorEvent := pEvent;
     wakeSensorTask := true; sensors := sensors a |}.

(** One turn of the loop "Process sensors forever"; [None] when the task
    stays suspended in [xSemaphoreTake(wakeSensorTask, portMAX_DELAY)]. *)
Definition demoTask_turn (a : App) : option (list AppAction * App) :=
  if wakeSensorTask a then
    let received := sensorReceived a in
    let reset := resetPerformed a in
    Some ((if received then [PrintEvent (sensorEvent a)] else [])
          ++ (if reset then [ConfigureForDefault; StartReports] else []),
          {| resetPerformed := false; startedReports := startedReports a;
             sensorReceived := false; sensorEvent := sensorEvent a;
             wakeSensorTask := false;
             sensors := if received then wrap32 (sensors a + 1) else sensors a |})
  else None.

End SensorApp.

(** [printDsf], lines 359-360: the sequence number of a report (a byte)
    extends the 32-bit sample counter of its sensor; [deltaSeq] is a
    [uint8_t]. *)
Definition deltaSeq (sequence lastSequence : Z) : Z :=
  (sequence - Z.land lastSequence 0xFF) mod 2 ^ 8.

Definition lastSequence_next (sequence lastSequence : Z) : Z :=
  wrap32 (lastSequence + deltaSeq sequence lastSequence).

(** ** Further properties of the translation unit: vocabulary *)

(** The event that the EXTI callback builds at tick [tick]. *)
Definition intn_at (tick : Z) : Event_t :=
  {| t_ms := tick; id := EVT_INTN; unit := 0%N |}.

(** A burst of sensor interrupts, each with its pin number and tick. *)
Definition exti_burst (pts : list (Z * Z)) : list Call :=
  map (fun p => Exti (fst p) (snd p)) pts.

(** Reading a trace against the bus mutex.  [lock_run held tr] follows
    the mutex through [tr], starting with it held or not, and gives up
    ([None]) when the mutex is taken while held or given while free, when
    the peripheral or a control line is driven without the mutex, or when
    a receive callback is entered with the mutex held. *)
Fixpoint lock_run (held : bool) (tr : list Action) : option bool :=
  match tr with
  | [] => Some held
  | a :: tr' =>
      match a with
      | MutexTake => if held then None else lock_run true tr'
      | MutexGive => if held then lock_run false tr' else None
      | I2cDeInit | I2cInit | I2cReceiveIT _ _ | I2cTransmitIT _ _ _
      | GpioWritePin _ _ => if held then lock_run true tr' else None
      | OnRx _ _ _ _ _ _ => if held then None else lock_run false tr'
      | TaskDelay _ => lock_run held tr'
      end
  end.

(** [lock_step b b' m]: started with the mutex in state [b], the trace of
    [m] respects the mutex up to the state [m] halts or returns in, and
    [m] returns with the mutex in state [b']. *)
Definition lock_step {A} (b b' : bool) (m : M A) : Prop :=
  forall s, i2cMutex s = b ->
    lock_run b (res_trace (m s)) = Some (i2cMutex (res_state (m s)))
    /\ forall tr a s', m s = Done tr a s' -> i2cMutex s' = b'.

(** A configuration with two units. *)
Definition two_units : Platform :=
  {| SH2_UNITS := 2%N; SH2_HAL_MAX_TRANSFER := 384;
     SH2_OK := 0; SH2_ERR_BAD_PARAM := -2; SH2_ERR_IO := -4 |}.

(** Unit 0 as [sh2_hal_init] leaves it: cleared, with its control lines. *)
Definition unit0_wired `{P : Platform} : Sh2_t :=
  set_bootn (Some bootn0) (set_rstn (Some rstn0) sh2_zero).

(** Every unit's receive buffer has its SH2_HAL_MAX_TRANSFER bytes. *)
Definition buffers_sized `{P : Platform} (s : Hal) : Prop :=
  Forall (fun u => length (rxBuf u) = Z.to_nat SH2_HAL_MAX_TRANSFER) (sh2 s).

(** A read request, or a delivery to a callback, whose length is at least
    the header and at most the receive buffer. *)
Definition read_fits `{P : Platform} (a : Action) : Prop :=
  match a with
  | I2cReceiveIT _ len => SHTP_HEADER_LEN <= len <= SH2_HAL_MAX_TRANSFER
  | OnRx _ _ _ buf len _ =>
      length buf = Z.to_nat SH2_HAL_MAX_TRANSFER
      /\ SHTP_HEADER_LEN <= len <= SH2_HAL_MAX_TRANSFER
  | _ => True
  end.

(** The time stamp of a delivery to a receive callback. *)
Definition delivery_time (a : Action) : option Z :=
  match a with
  | OnRx _ _ _ _ _ t_us => Some t_us
  | _ => None
  end.

(** The event queue holds no more than it was created for. *)
Definition queue_in_capacity (s : Hal) : Prop :=
  Z.of_nat (length (evtQueue s)) <= MAX_EVENTS.

Ltac unfold_hal :=
  unfold i2cBlockingRx, i2cBlockingTx, i2cReset, await_i2cBlockSem, run_irq,
    HAL_I2C_MasterTxCpltCallback, HAL_I2C_MasterRxCpltCallback,
    HAL_I2C_ErrorCallback, xSemaphoreTake_i2cMutex, xSemaphoreGive_i2cMutex,
    xSemaphoreTake_i2cBlockSem, sh2_set, sh2_get, vTaskDelay, call_ptr,
    call_GpioFn, HAL_GPIO_WritePin, xQueueReceive, xQueueSendFromISR,
    bind, ret, emit, gets, modify, halt in *.

(** ** Arithmetic of the header and of the read length *)

Lemma byteZ_range (b : byte) : 0 <= byteZ b < 256.
Proof.
  unfold byteZ. pose proof (Byte.to_N_bounded b). lia.
Qed.

Lemma land_clear_bit15 (x : Z) :
  0 <= x < 2 ^ 16 -> Z.land x (Z.lnot 0x8000) = x mod 2 ^ 15.
Proof.
  intros Hx. apply Z.bits_inj'. intros n Hn.
  rewrite Z.land_spec, Z.lnot_spec by exact Hn.
  change 0x8000 with (2 ^ 15).
  rewrite Z.pow2_bits_eqb by lia.
  destruct (Z.ltb_spec n 15) as [Hlo | Hhi].
  - rewrite Z.mod_pow2_bits_low by lia.
    rewrite (proj2 (Z.eqb_neq 15 n)) by lia.
    simpl. apply andb_true_r.
  - rewrite Z.mod_pow2_bits_high by lia.
    destruct (Z.eqb_spec 15 n) as [Heq | Hne].
    + simpl. apply andb_false_r.
    + assert (Hbit : Z.testbit x n = false).
      { rewrite <- (Z.mod_small x (2 ^ 16)) by lia.
        apply Z.mod_pow2_bits_high. lia. }
      rewrite Hbit. reflexivity.
Qed.

Section Arith.
Context `{P : Platform}.

Lemma header_word_range (rxBuf : list byte) :
  0 <= Z.shiftl (byteZ (nth 1 rxBuf x00)) 8 + byteZ (nth 0 rxBuf x00) < 2 ^ 16.
Proof.
  rewrite Z.shiftl_mul_pow2 by lia.
  pose proof (byteZ_range (nth 1 rxBuf x00)).
  pose proof (byteZ_range (nth 0 rxBuf x00)).
  change (2 ^ 8) with 256. change (2 ^ 16) with 65536. lia.
Qed.

Lemma cargoLen_of_range (rxBuf : list byte) : 0 <= cargoLen_of rxBuf < 32768.
Proof.
  unfold cargoLen_of, wrap32.
  rewrite land_clear_bit15 by apply header_word_range.
  pose proof (Z.mod_pos_bound
    (Z.shiftl (byteZ (nth 1 rxBuf x00)) 8 + byteZ (nth 0 rxBuf x00)) (2 ^ 15) eq_refl)
    as Hm.
  change (2 ^ 15) with 32768 in *.
  rewrite Z.mod_small; [exact Hm | ].
  change (2 ^ 32) with 4294967296. lia.
Qed.

Lemma readLen_of_min_max (rxRemaining : Z) :
  readLen_of rxRemaining
  = Z.min SH2_HAL_MAX_TRANSFER (Z.max rxRemaining SHTP_HEADER_LEN).
Proof.
  unfold readLen_of, SHTP_HEADER_LEN.
  destruct (Z.ltb_spec rxRemaining 4);
    [destruct (Z.ltb_spec SH2_HAL_MAX_TRANSFER 4)
    | destruct (Z.ltb_spec SH2_HAL_MAX_TRANSFER rxRemaining)]; lia.
Qed.

Lemma rxRemaining_of_exact (cargoLen readLen : Z) :
  0 <= readLen -> 0 <= cargoLen < 32768 ->
  rxRemaining_of cargoLen readLen
  = if readLen <? cargoLen then cargoLen - readLen + SHTP_HEADER_LEN else 0.
Proof.
  intros HL HC. unfold rxRemaining_of, wrap16, wrap32, SHTP_HEADER_LEN.
  destruct (Z.ltb_spec readLen cargoLen); [ | reflexivity].
  change (2 ^ 32) with 4294967296. change (2 ^ 16) with 65536.
  rewrite (Z.mod_small (cargoLen - readLen)) by lia.
  rewrite (Z.mod_small (cargoLen - readLen + 4) 4294967296) by lia.
  apply Z.mod_small. lia.
Qed.

End Arith.

(** C4.  The cargo length that the worker task takes from a received
    buffer is the 16-bit little-endian value of the first two bytes with
    bit 15 cleared: (buf[1] * 256 + buf[0]) mod 32768. *)
Theorem cargoLen_header_decode (rxBuf : list byte) :
  cargoLen_of rxBuf
  = (byteZ (nth 1 rxBuf x00) * 256 + byteZ (nth 0 rxBuf x00)) mod 32768.
Proof.
  unfold cargoLen_of, wrap32.
  rewrite land_clear_bit15 by apply header_word_range.
  rewrite Z.shiftl_mul_pow2 by lia.
  change (2 ^ 8) with 256. change (2 ^ 15) with 32768.
  pose proof (Z.mod_pos_bound
    (byteZ (nth 1 rxBuf x00) * 256 + byteZ (nth 0 rxBuf x00)) 32768 eq_refl).
  apply Z.mod_small. change (2 ^ 32) with 4294967296. lia.
Qed.

(** ** Running the bus transaction primitive *)

Section Bus.
Context `{P : Platform}.

Lemma i2cBlockingRx_run (addr len : Z) (pData : list byte) (r : BusReply) (s : Hal) :
  i2cMutex s = false ->
  answers r ->
  exists s',
    i2cBlockingRx addr pData len r s
    = Done ([MutexTake] ++ (if i2cResetNeeded s then [I2cDeInit; I2cInit] else [])
              ++ [I2cReceiveIT addr len; MutexGive])
           (reply_status r, if rc r =? 0 then store_rx (rxData r) len pData else pData)
           s'
    /\ i2cMutex s' = false
    /\ i2cResetNeeded s' = false
    /\ i2cBlockSem s' = (if rc r =? 0 then false else i2cBlockSem s)
    /\ evtQueue s' = evtQueue s
    /\ sh2 s' = sh2 s.
Proof.
  intros Hm Ha. destruct s as [mx bs st rn q us]. simpl in Hm. subst mx.
  destruct r as [c [i | ] d]; unfold answers, reply_status in *; simpl in *;
    unfold_hal; simpl;
    destruct (c =? 0) eqn:Hc; destruct rn; try destruct i; simpl;
    try (eexists; repeat split; reflexivity).
  all: apply Z.eqb_eq in Hc; destruct Ha as [Ha | Ha]; congruence.
Qed.

Lemma i2cBlockingTx_run (addr len : Z) (pData : list byte) (r : BusReply) (s : Hal) :
  i2cMutex s = false ->
  answers r ->
  exists s',
    i2cBlockingTx addr pData len r s
    = Done ([MutexTake] ++ (if i2cResetNeeded s then [I2cDeInit; I2cInit] else [])
              ++ [I2cTransmitIT addr pData len; MutexGive])
           (reply_status r) s'
    /\ i2cMutex s' = false
    /\ i2cResetNeeded s' = false
    /\ i2cBlockSem s' = (if rc r =? 0 then false else i2cBlockSem s)
    /\ evtQueue s' = evtQueue s
    /\ sh2 s' = sh2 s.
Proof.
  intros Hm Ha. destruct s as [mx bs st rn q us]. simpl in Hm. subst mx.
  destruct r as [c [i | ] d]; unfold answers, reply_status in *; simpl in *;
    unfold_hal; simpl;
    destruct (c =? 0) eqn:Hc; destruct rn; try destruct i; simpl;
    try (eexists; repeat split; reflexivity).
  all: apply Z.eqb_eq in Hc; destruct Ha as [Ha | Ha]; congruence.
Qed.

Lemma reply_status_refused (r : BusReply) : rc r <> 0 -> reply_status r = SH2_ERR_IO.
Proof.
  intros H. unfold reply_status. apply Z.eqb_neq in H. rewrite H. reflexivity.
Qed.

Lemma reply_status_error (r : BusReply) :
  rc r = 0 -> irq r = Some ErrorIrq -> reply_status r = SH2_ERR_IO.
Proof.
  intros H0 Hi. unfold reply_status. rewrite H0, Hi. reflexivity.
Qed.

Lemma reply_status_complete (r : BusReply) :
  rc r = 0 -> irq r = Some MasterRxCplt \/ irq r = Some MasterTxCplt ->
  reply_status r = SH2_OK.
Proof.
  intros H0 [Hi | Hi]; unfold reply_status; rewrite H0, Hi; reflexivity.
Qed.

Lemma i2cBlockingRx_returns (addr len : Z) (pData : list byte) (r : BusReply) (s : Hal) :
  i2cMutex s = false -> answers r -> returns (i2cBlockingRx addr pData len r s).
Proof.
  intros Hm Ha.
  destruct (i2cBlockingRx_run addr len pData r s Hm Ha) as (s' & -> & _).
  exact I.
Qed.

Lemma i2cBlockingTx_returns (addr len : Z) (pData : list byte) (r : BusReply) (s : Hal) :
  i2cMutex s = false -> answers r -> returns (i2cBlockingTx addr pData len r s).
Proof.
  intros Hm Ha.
  destruct (i2cBlockingTx_run addr len pData r s Hm Ha) as (s' & -> & _).
  exact I.
Qed.

End Bus.

(** C2.  [i2cBlockingRx] and [i2cBlockingTx], called with the bus mutex
    free and a reply that lets them come back, return [SH2_ERR_IO] when
    the transfer request is refused, [SH2_ERR_IO] when the error callback
    ends the transfer, [SH2_OK] when a completion callback ends it; on each
    path the last thing they do is give the mutex back, the mutex is free
    afterwards, and a following transaction comes back as well. *)
Theorem i2cBlocking_status_and_release `{P : Platform}
    (addr len : Z) (pData : list byte) (r : BusReply) (s : Hal) :
  i2cMutex s = false ->
  answers r ->
  exists trR stR bufR sR trT stT sT,
    i2cBlockingRx addr pData len r s = Done trR (stR, bufR) sR
    /\ i2cBlockingTx addr pData len r s = Done trT stT sT
    /\ (rc r <> 0 -> stR = SH2_ERR_IO /\ stT = SH2_ERR_IO)
    /\ (rc r = 0 -> irq r = Some ErrorIrq -> stR = SH2_ERR_IO /\ stT = SH2_ERR_IO)
    /\ (rc r = 0 -> irq r = Some MasterRxCplt \/ irq r = Some MasterTxCplt ->
        stR = SH2_OK /\ stT = SH2_OK)
    /\ last trR = Some MutexGive /\ last trT = Some MutexGive
    /\ i2cMutex sR = false /\ i2cMutex sT = false
    /\ (forall addr2 len2 pData2 r2, answers r2 ->
          returns (i2cBlockingRx addr2 pData2 len2 r2 sR)
          /\ returns (i2cBlockingTx addr2 pData2 len2 r2 sR)
          /\ returns (i2cBlockingRx addr2 pData2 len2 r2 sT)
          /\ returns (i2cBlockingTx addr2 pData2 len2 r2 sT)).
Proof.
  intros Hm Ha.
  destruct (i2cBlockingRx_run addr len pData r s Hm Ha) as (sR & HR & HmR & _).
  destruct (i2cBlockingTx_run addr len pData r s Hm Ha) as (sT & HT & HmT & _).
  eexists _, _, _, sR, _, _, sT.
  split; [exact HR | ]. split; [exact HT | ].
  split; [intros H; split; apply reply_status_refused; exact H | ].
  split; [intros H0 Hi; split; apply reply_status_error; assumption | ].
  split; [intros H0 Hi; split; apply reply_status_complete; assumption | ].
  split; [destruct (i2cResetNeeded s); reflexivity | ].
  split; [destruct (i2cResetNeeded s); reflexivity | ].
  split; [exact HmR | ]. split; [exact HmT | ].
  intros addr2 len2 pData2 r2 Ha2.
  repeat split;
    first [apply i2cBlockingRx_returns | apply i2cBlockingTx_returns]; assumption.
Qed.

(** A refused read request on the initialised bus: status [SH2_ERR_IO],
    mutex given back. *)
Lemma i2cBlocking_status_and_release_witness :
  exists trR stR bufR sR trT stT sT,
    @i2cBlockingRx nucleo 0x94 [x00; x00] 2 {| rc := 1; irq := None; rxData := [] |}
       (res_state (@sh2_hal_init nucleo (@boot nucleo)))
      = Done trR (stR, bufR) sR
    /\ @i2cBlockingTx nucleo 0x94 [x00; x00] 2 {| rc := 1; irq := None; rxData := [] |}
         (res_state (@sh2_hal_init nucleo (@boot nucleo)))
      = Done trT stT sT
    /\ stR = -4 /\ stT = -4 /\ i2cMutex sR = false /\ i2cMutex sT = false.
Proof.
  destruct (@i2cBlocking_status_and_release nucleo 0x94 2 [x00; x00]
              {| rc := 1; irq := None; rxData := [] |}
              (res_state (@sh2_hal_init nucleo (@boot nucleo))))
    as (trR & stR & bufR & sR & trT & stT & sT & HR & HT & Hrefused & _ & _ & _ & _
        & HmR & HmT & _).
  - reflexivity.
  - left. simpl. lia.
  - exists trR, stR, bufR, sR, trT, stT, sT.
    destruct Hrefused as [H1 H2]; [simpl; lia | ].
    repeat split; assumption.
Defined.

(** ** Running the worker task on one event *)

Lemma bind_Done {A B} (m : M A) (k : A -> M B) (s s1 : Hal) (tr : list Action) (a : A) :
  m s = Done tr a s1 ->
  bind m k s
  = match k a s1 with
    | Done tr' b s2 => Done (tr ++ tr') b s2
    | Stuck w tr' s2 => Stuck w (tr ++ tr') s2
    end.
Proof. intros H. unfold bind. rewrite H. reflexivity. Qed.

Lemma sh2_get_run (unit : N) (u : Sh2_t) (s : Hal) :
  sh2 s !! N.to_nat unit = Some u -> sh2_get unit s = Done [] u s.
Proof. intros H. unfold sh2_get. rewrite H. reflexivity. Qed.

Lemma sh2_set_run (unit : N) (f : Sh2_t -> Sh2_t) (u : Sh2_t) (s : Hal) :
  sh2 s !! N.to_nat unit = Some u ->
  sh2_set unit f s = Done [] tt (set_sh2 (<[N.to_nat unit := f u]> (sh2 s)) s).
Proof.
  intros H. unfold sh2_set. rewrite (bind_Done _ _ _ _ _ _ (sh2_get_run _ _ _ H)).
  reflexivity.
Qed.

Lemma sh2_lookup_set (unit : N) (u v : Sh2_t) (s : Hal) :
  sh2 s !! N.to_nat unit = Some u ->
  sh2 (set_sh2 (<[N.to_nat unit := v]> (sh2 s)) s) !! N.to_nat unit = Some v.
Proof.
  intros H. simpl. apply list_lookup_insert_eq. eapply lookup_lt_Some. exact H.
Qed.

Section Worker.
Context `{P : Platform}.

(** What one interrupt event does when the unit has a callback. *)
Lemma halTask_event_run (event : Event_t) (r : BusReply) (s : Hal) (u : Sh2_t) :
  (unit event < SH2_UNITS)%N ->
  sh2 s !! N.to_nat (unit event) = Some u ->
  id event = EVT_INTN ->
  onRx u <> 0 ->
  i2cMutex s = false ->
  answers r ->
  let readLen := readLen_of (rxRemaining u) in
  let buf := if rc r =? 0 then store_rx (rxData r) readLen (rxBuf u) else rxBuf u in
  exists s',
    halTask_event event r s
    = Done ([MutexTake] ++ (if i2cResetNeeded s then [I2cDeInit; I2cInit] else [])
              ++ [I2cReceiveIT (addr u) readLen; MutexGive]
              ++ [OnRx (unit event) (onRx u) (onRxCookie u) buf readLen
                       (wrap32 (t_ms event * 1000))])
           tt s'
    /\ sh2 s'
       = <[N.to_nat (unit event) :=
             set_rxRemaining (rxRemaining_of (cargoLen_of buf) readLen) (set_rxBuf buf u)]>
           (sh2 s)
    /\ i2cMutex s' = false
    /\ i2cResetNeeded s' = false
    /\ evtQueue s' = evtQueue s.
Proof.
  intros Hu Hl Hid Hcb Hm Ha readLen buf.
  unfold halTask_event.
  rewrite (proj2 (N.leb_gt SH2_UNITS (unit event))) by exact Hu.
  rewrite (bind_Done _ _ _ _ _ _ (sh2_get_run _ _ _ Hl)).
  rewrite Hid, Z.eqb_refl, (proj2 (Z.eqb_neq (onRx u) 0)) by exact Hcb.
  cbn [negb].
  destruct (i2cBlockingRx_run (addr u) (readLen_of (rxRemaining u)) (rxBuf u) r s Hm Ha)
    as (s1 & Hrx & Hm1 & Hrn1 & _ & Hq1 & Hsh1).
  rewrite (bind_Done _ _ _ _ _ _ Hrx). cbn [snd].
  fold readLen. fold buf.
  assert (Hl1 : sh2 s1 !! N.to_nat (unit event) = Some u) by (rewrite Hsh1; exact Hl).
  rewrite (bind_Done _ _ _ _ _ _ (sh2_set_run _ _ _ _ Hl1)).
  pose proof (sh2_lookup_set _ _ (set_rxBuf buf u) _ Hl1) as Hl2.
  rewrite (bind_Done _ _ _ _ _ _ (sh2_get_run _ _ _ Hl2)).
  rewrite (bind_Done _ _ _ _ _ _ (sh2_set_run _ _ _ _ Hl2)).
  pose proof (sh2_lookup_set _ _
    (set_rxRemaining (rxRemaining_of (cargoLen_of (rxBuf (set_rxBuf buf u))) readLen)
       (set_rxBuf buf u)) _ Hl2) as Hl3.
  rewrite (bind_Done _ _ _ _ _ _ (sh2_get_run _ _ _ Hl3)).
  unfold emit. cbn [rxBuf set_rxBuf set_rxRemaining onRx onRxCookie].
  eexists. split.
  - rewrite !app_nil_l, <- ?app_assoc. reflexivity.
  - cbn [sh2 set_sh2 i2cMutex i2cResetNeeded evtQueue].
    rewrite list_insert_insert_eq, Hsh1. auto.
Qed.

End Worker.

(** C1.  For a unit with a callback, the worker task reads
    L = min(SH2_HAL_MAX_TRANSFER, max(rxRemaining, 4)) bytes; with C the
    cargo length in the header of the buffer after that read, rxRemaining
    becomes C - L + 4 when C > L and 0 otherwise, so that the next read
    length is min(SH2_HAL_MAX_TRANSFER, C - L + 4) when C > L and 4 when
    C <= L.  (The transfer size is at least the header length.) *)
Theorem read_length_state_machine `{P : Platform}
    (event : Event_t) (r : BusReply) (s : Hal) (u : Sh2_t) :
  SHTP_HEADER_LEN <= SH2_HAL_MAX_TRANSFER ->
  (unit event < SH2_UNITS)%N ->
  sh2 s !! N.to_nat (unit event) = Some u ->
  id event = EVT_INTN ->
  onRx u <> 0 ->
  i2cMutex s = false ->
  answers r ->
  let L := readLen_of (rxRemaining u) in
  L = Z.min SH2_HAL_MAX_TRANSFER (Z.max (rxRemaining u) 4)
  /\ exists tr s' u',
       halTask_event event r s = Done tr tt s'
       /\ filter is_transfer tr = [I2cReceiveIT (addr u) L]
       /\ sh2 s' !! N.to_nat (unit event) = Some u'
       /\ let C := cargoLen_of (rxBuf u') in
          (L < C ->
             rxRemaining u' = C - L + 4
             /\ readLen_of (rxRemaining u') = Z.min SH2_HAL_MAX_TRANSFER (C - L + 4))
          /\ (C <= L ->
                rxRemaining u' = 0 /\ readLen_of (rxRemaining u') = 4).
Proof.
  intros Hmax Hu Hl Hid Hcb Hm Ha L.
  split; [apply readLen_of_min_max | ].
  destruct (halTask_event_run event r s u Hu Hl Hid Hcb Hm Ha)
    as (s' & Hrun & Hsh & _).
  fold L in Hrun, Hsh.
  set (buf := if rc r =? 0 then store_rx (rxData r) L (rxBuf u) else rxBuf u) in *.
  eexists _, s', (set_rxRemaining (rxRemaining_of (cargoLen_of buf) L) (set_rxBuf buf u)).
  split; [exact Hrun | ].
  split; [destruct (i2cResetNeeded s); reflexivity | ].
  split.
  { rewrite Hsh. apply list_lookup_insert_eq. eapply lookup_lt_Some. exact Hl. }
  cbn [rxBuf set_rxBuf set_rxRemaining rxRemaining].
  pose proof (cargoLen_of_range buf) as HC.
  assert (HL : 4 <= L).
  { unfold L. rewrite readLen_of_min_max. unfold SHTP_HEADER_LEN in *. lia. }
  rewrite rxRemaining_of_exact by lia.
  unfold SHTP_HEADER_LEN in *.
  split; intros Hcmp.
  - rewrite (proj2 (Z.ltb_lt L (cargoLen_of buf))) by exact Hcmp.
    split; [reflexivity | ].
    rewrite readLen_of_min_max. unfold SHTP_HEADER_LEN. lia.
  - rewrite (proj2 (Z.ltb_ge L (cargoLen_of buf))) by exact Hcmp.
    split; [reflexivity | ].
    rewrite readLen_of_min_max. unfold SHTP_HEADER_LEN. lia.
Qed.

(** A 4-byte probe that finds a 20-byte cargo: 20 bytes are owed. *)
Lemma read_length_state_machine_witness :
  exists tr s' u',
    @halTask_event nucleo intn_event header20 ready = Done tr tt s'
    /\ sh2 s' !! 0%nat = Some u'
    /\ rxRemaining u' = 20
    /\ @readLen_of nucleo (rxRemaining u') = 20.
Proof.
  destruct (@read_length_state_machine nucleo intn_event header20 ready ready_unit)
    as (_ & tr & s' & u' & Hrun & _ & Hl & Hmore & _).
  - vm_compute. congruence.
  - reflexivity.
  - reflexivity.
  - reflexivity.
  - vm_compute. congruence.
  - reflexivity.
  - right. simpl. congruence.
  - exists tr, s', u'. split; [exact Hrun | ]. split; [exact Hl | ].
    assert (Hs : s' = res_state (@halTask_event nucleo intn_event header20 ready))
      by (rewrite Hrun; reflexivity).
    assert (Hu : u' = default (@sh2_zero nucleo) (sh2 s' !! 0%nat))
      by (change (N.to_nat (unit intn_event)) with 0%nat in Hl; rewrite Hl; reflexivity).
    rewrite Hs in Hu. subst u'. vm_compute. split; reflexivity.
Defined.

(** ** Parameter checks and the zero-length case *)

Section Api.
Context `{P : Platform}.

Lemma bind_Done_nil {A B} (m : M A) (k : A -> M B) (s s1 : Hal) (a : A) :
  m s = Done [] a s1 -> bind m k s = k a s1.
Proof. intros H. unfold bind. rewrite H. destruct (k a s1); reflexivity. Qed.

(** Whatever the bus answers, a call that finds the mutex free takes it
    and asks the driver for exactly one transfer. *)
Lemma i2cBlockingTx_transfer (addr len : Z) (pData : list byte) (r : BusReply) (s : Hal) :
  i2cMutex s = false ->
  filter is_transfer (res_trace (i2cBlockingTx addr pData len r s))
  = [I2cTransmitIT addr pData len]
  /\ head (res_trace (i2cBlockingTx addr pData len r s)) = Some MutexTake.
Proof.
  intros Hm. destruct s as [mx bs st rn q us]. simpl in Hm. subst mx.
  destruct r as [c [i | ] d]; unfold_hal; simpl;
    destruct (c =? 0); destruct rn; try destruct i; simpl; try destruct bs;
    simpl; split; reflexivity.
Qed.

Lemma i2cBlockingRx_transfer (addr len : Z) (pData : list byte) (r : BusReply) (s : Hal) :
  i2cMutex s = false ->
  filter is_transfer (res_trace (i2cBlockingRx addr pData len r s))
  = [I2cReceiveIT addr len]
  /\ head (res_trace (i2cBlockingRx addr pData len r s)) = Some MutexTake.
Proof.
  intros Hm. destruct s as [mx bs st rn q us]. simpl in Hm. subst mx.
  destruct r as [c [i | ] d]; unfold_hal; simpl;
    destruct (c =? 0); destruct rn; try destruct i; simpl; try destruct bs;
    simpl; split; reflexivity.
Qed.

Lemma sh2_hal_tx_transfer (unit : N) (pData : list byte) (len : Z) (r : BusReply)
    (s : Hal) (u : Sh2_t) :
  (unit < SH2_UNITS)%N -> len <> 0 ->
  sh2 s !! N.to_nat unit = Some u -> i2cMutex s = false ->
  filter is_transfer (res_trace (sh2_hal_tx unit pData len r s))
  = [I2cTransmitIT (addr u) pData len]
  /\ head (res_trace (sh2_hal_tx unit pData len r s)) = Some MutexTake.
Proof.
  intros Hu Hlen Hl Hm. unfold sh2_hal_tx.
  rewrite (proj2 (N.leb_gt SH2_UNITS unit)) by exact Hu.
  rewrite (proj2 (Z.eqb_neq len 0)) by exact Hlen.
  rewrite (bind_Done_nil _ _ _ _ _ (sh2_get_run _ _ _ Hl)).
  apply i2cBlockingTx_transfer. exact Hm.
Qed.

Lemma sh2_hal_rx_transfer (unit : N) (pData : list byte) (len : Z) (r : BusReply)
    (s : Hal) (u : Sh2_t) :
  (unit < SH2_UNITS)%N -> len <> 0 ->
  sh2 s !! N.to_nat unit = Some u -> i2cMutex s = false ->
  filter is_transfer (res_trace (sh2_hal_rx unit pData len r s))
  = [I2cReceiveIT (addr u) len]
  /\ head (res_trace (sh2_hal_rx unit pData len r s)) = Some MutexTake.
Proof.
  intros Hu Hlen Hl Hm. unfold sh2_hal_rx.
  rewrite (proj2 (N.leb_gt SH2_UNITS unit)) by exact Hu.
  rewrite (proj2 (Z.eqb_neq len 0)) by exact Hlen.
  rewrite (bind_Done_nil _ _ _ _ _ (sh2_get_run _ _ _ Hl)).
  apply i2cBlockingRx_transfer. exact Hm.
Qed.

End Api.

(** C7.  With a unit index that is not below SH2_UNITS, each of
    sh2_hal_reset, sh2_hal_tx, sh2_hal_rx, sh2_hal_block and
    sh2_hal_unblock returns SH2_ERR_BAD_PARAM, calls nothing (no lock, no
    bus transfer, no pin) and leaves every variable as it was. *)
Theorem bad_unit_is_rejected `{P : Platform}
    (unit : N) (dfuMode : bool) (onRx cookie len : Z) (pData : list byte)
    (r : BusReply) (s : Hal) :
  (SH2_UNITS <= unit)%N ->
  sh2_hal_reset unit dfuMode onRx cookie s = Done [] SH2_ERR_BAD_PARAM s
  /\ sh2_hal_tx unit pData len r s = Done [] SH2_ERR_BAD_PARAM s
  /\ sh2_hal_rx unit pData len r s = Done [] (SH2_ERR_BAD_PARAM, pData) s
  /\ sh2_hal_block unit s = Done [] SH2_ERR_BAD_PARAM s
  /\ sh2_hal_unblock unit s = Done [] SH2_ERR_BAD_PARAM s.
Proof.
  intros Hu. apply N.leb_le in Hu.
  unfold sh2_hal_reset, sh2_hal_tx, sh2_hal_rx, sh2_hal_block, sh2_hal_unblock.
  rewrite Hu. repeat split; reflexivity.
Qed.

(** Index 1 with one unit configured. *)
Lemma bad_unit_is_rejected_witness :
  @sh2_hal_reset nucleo 1%N true 0x2000 7 ready = Done [] (-2) ready
  /\ @sh2_hal_tx nucleo 1%N [x01] 1 header20 ready = Done [] (-2) ready
  /\ @sh2_hal_rx nucleo 1%N [x01] 1 header20 ready = Done [] (-2, [x01]) ready
  /\ @sh2_hal_block nucleo 1%N ready = Done [] (-2) ready
  /\ @sh2_hal_unblock nucleo 1%N ready = Done [] (-2) ready.
Proof.
  apply (@bad_unit_is_rejected nucleo 1%N true 0x2000 7 1 [x01] header20 ready).
  vm_compute. congruence.
Defined.

(** C9.  For a valid unit, sh2_hal_tx and sh2_hal_rx with length 0 return
    SH2_OK, call nothing (the bus mutex is not taken, whether it is free
    or not, and no transfer is requested) and leave the state as it was;
    with a length above 0 and the mutex free they take the mutex and
    request exactly one transfer, at the address stored for the unit. *)
Theorem tx_rx_zero_length_is_noop `{P : Platform}
    (unit : N) (pData : list byte) (r : BusReply) (s : Hal) :
  (unit < SH2_UNITS)%N ->
  sh2_hal_tx unit pData 0 r s = Done [] SH2_OK s
  /\ sh2_hal_rx unit pData 0 r s = Done [] (SH2_OK, pData) s
  /\ forall len u,
       0 < len ->
       sh2 s !! N.to_nat unit = Some u ->
       i2cMutex s = false ->
       filter is_transfer (res_trace (sh2_hal_tx unit pData len r s))
       = [I2cTransmitIT (addr u) pData len]
       /\ head (res_trace (sh2_hal_tx unit pData len r s)) = Some MutexTake
       /\ filter is_transfer (res_trace (sh2_hal_rx unit pData len r s))
          = [I2cReceiveIT (addr u) len]
       /\ head (res_trace (sh2_hal_rx unit pData len r s)) = Some MutexTake.
Proof.
  intros Hu.
  split; [ | split].
  - unfold sh2_hal_tx. rewrite (proj2 (N.leb_gt SH2_UNITS unit)) by exact Hu.
    reflexivity.
  - unfold sh2_hal_rx. rewrite (proj2 (N.leb_gt SH2_UNITS unit)) by exact Hu.
    reflexivity.
  - intros len u Hlen Hl Hm.
    assert (Hne : len <> 0) by lia.
    destruct (sh2_hal_tx_transfer unit pData len r s u Hu Hne Hl Hm) as [Ht1 Ht2].
    destruct (sh2_hal_rx_transfer unit pData len r s u Hu Hne Hl Hm) as [Hr1 Hr2].
    auto.
Qed.

(** Unit 0 after a reset into normal mode: nothing for length 0, one
    transfer at 0x94 for a 2-byte write. *)
Lemma tx_rx_zero_length_is_noop_witness :
  @sh2_hal_tx nucleo 0%N [x01; x02] 0 header20 ready = Done [] 0 ready
  /\ @sh2_hal_rx nucleo 0%N [x01; x02] 0 header20 ready = Done [] (0, [x01; x02]) ready
  /\ filter is_transfer (res_trace (@sh2_hal_tx nucleo 0%N [x01; x02] 2 header20 ready))
     = [I2cTransmitIT 0x94 [x01; x02] 2].
Proof.
  destruct (@tx_rx_zero_length_is_noop nucleo 0%N [x01; x02] header20 ready)
    as (Htx & Hrx & Hpos).
  - reflexivity.
  - split; [exact Htx | ]. split; [exact Hrx | ].
    destruct (Hpos 2 ready_unit) as (Ht & _); [lia | reflexivity | reflexivity | ].
    exact Ht.
Defined.

(** C8.  When the event at the head of the queue has a unit index out of
    range, or a kind other than EVT_INTN, or belongs to a unit without a
    receive callback, that turn of the worker task calls nothing (no bus
    transfer), changes nothing but the queue it took the event from, and
    the task goes on to wait for the next event. *)
Theorem ignored_event_changes_nothing `{P : Platform}
    (event : Event_t) (q : list Event_t) (r : BusReply) (s : Hal) :
  units_allocated s ->
  evtQueue s = event :: q ->
  ((SH2_UNITS <= unit event)%N
   \/ id event <> EVT_INTN
   \/ exists u, sh2 s !! N.to_nat (unit event) = Some u /\ onRx u = 0) ->
  halTask_iter r s = Done [] tt (set_evtQueue q s)
  /\ sh2 (set_evtQueue q s) = sh2 s
  /\ forall rs, halTask (r :: rs) s = halTask rs (set_evtQueue q s).
Proof.
  intros Hwf Hq Hcase.
  assert (Hrecv : xQueueReceive s = Done [] event (set_evtQueue q s)).
  { unfold xQueueReceive. rewrite Hq. reflexivity. }
  assert (Hbody : halTask_event event r (set_evtQueue q s)
                  = Done [] tt (set_evtQueue q s)).
  { unfold halTask_event.
    destruct (N.leb_spec SH2_UNITS (unit event)) as [Hbad | Hok]; [reflexivity | ].
    assert (Hsome : is_Some (sh2 (set_evtQueue q s) !! N.to_nat (unit event))).
    { apply lookup_lt_is_Some. simpl. unfold units_allocated in Hwf. lia. }
    destruct Hsome as [u Hl].
    rewrite (bind_Done_nil _ _ _ _ _ (sh2_get_run _ _ _ Hl)).
    destruct Hcase as [Hbad | [Hid | (u' & Hl' & Hcb)]].
    - lia.
    - rewrite (proj2 (Z.eqb_neq (id event) EVT_INTN)) by exact Hid. reflexivity.
    - simpl in Hl. rewrite Hl' in Hl. injection Hl as ->.
      rewrite Hcb. destruct (id event =? EVT_INTN); reflexivity. }
  assert (Hiter : halTask_iter r s = Done [] tt (set_evtQueue q s)).
  { unfold halTask_iter. rewrite (bind_Done_nil _ _ _ _ _ Hrecv). exact Hbody. }
  split; [exact Hiter | ]. split; [reflexivity | ].
  intros rs. cbn [halTask].
  exact (bind_Done_nil _ (fun _ => halTask rs) _ _ _ Hiter).
Qed.

(** After initialisation no callback is registered: an interrupt event for
    unit 0 is taken from the queue and dropped. *)
Lemma ignored_event_changes_nothing_witness :
  @halTask_iter nucleo header20
     (set_evtQueue [intn_event] (res_state (@sh2_hal_init nucleo (@boot nucleo))))
  = Done [] tt (res_state (@sh2_hal_init nucleo (@boot nucleo))).
Proof.
  destruct (@ignored_event_changes_nothing nucleo intn_event [] header20
              (set_evtQueue [intn_event] (res_state (@sh2_hal_init nucleo (@boot nucleo)))))
    as (Hiter & _).
  - reflexivity.
  - reflexivity.
  - right. right. eexists. split; reflexivity.
  - exact Hiter.
Defined.

(** ** Invariants along a computation *)

Section Safe.
Context {I : Hal -> Prop} {Pa : Action -> Prop}.

Lemma safe_ret {A} (a : A) : safe I Pa (ret a).
Proof. intros s Hs. split; [exact Hs | constructor]. Qed.

Lemma safe_halt {A} (w : Halt) : safe I Pa (@halt A w).
Proof. intros s Hs. split; [exact Hs | constructor]. Qed.

Lemma safe_gets {A} (f : Hal -> A) : safe I Pa (gets f).
Proof. intros s Hs. split; [exact Hs | constructor]. Qed.

Lemma safe_emit (a : Action) : Pa a -> safe I Pa (emit a).
Proof. intros Ha s Hs. split; [exact Hs | repeat constructor; exact Ha]. Qed.

Lemma safe_modify (f : Hal -> Hal) :
  (forall s, I s -> I (f s)) -> safe I Pa (modify f).
Proof. intros Hf s Hs. split; [apply Hf; exact Hs | constructor]. Qed.

Lemma safe_bind {A B} (m : M A) (k : A -> M B) :
  safe I Pa m -> (forall a, safe I Pa (k a)) -> safe I Pa (bind m k).
Proof.
  intros Hm Hk s Hs. destruct (Hm s Hs) as [Hs1 Ht1]. unfold bind.
  destruct (m s) as [tr a s1 | w tr s1]; simpl in *.
  - destruct (Hk a s1 Hs1) as [Hs2 Ht2].
    destruct (k a s1) as [tr' b s2 | w tr' s2]; simpl in *;
      (split; [exact Hs2 | apply Forall_app; split; assumption]).
  - split; assumption.
Qed.

Lemma safe_sh2_get (unit : N) : safe I Pa (sh2_get unit).
Proof.
  intros s Hs. unfold sh2_get.
  destruct (sh2 s !! N.to_nat unit); (split; [exact Hs | constructor]).
Qed.

Lemma safe_sh2_set (unit : N) (f : Sh2_t -> Sh2_t) :
  (forall s u, I s -> sh2 s !! N.to_nat unit = Some u ->
     I (set_sh2 (<[N.to_nat unit := f u]> (sh2 s)) s)) ->
  safe I Pa (sh2_set unit f).
Proof.
  intros Hf s Hs. unfold sh2_set, sh2_get, bind, modify.
  destruct (sh2 s !! N.to_nat unit) as [u | ] eqn:Hl; simpl.
  - split; [apply Hf; assumption | constructor].
  - split; [exact Hs | constructor].
Qed.

Lemma safe_for_units (units : list N) (body : N -> M ()) :
  (forall unit, safe I Pa (body unit)) -> safe I Pa (for_units units body).
Proof.
  intros Hb. induction units as [ | unit rest IH]; cbn [for_units].
  - apply safe_ret.
  - apply safe_bind; [apply Hb | intros _; exact IH].
Qed.

End Safe.

(** Splitting a computation into its steps; what is left are the steps
    that write to the state or call out. *)
Ltac safe_steps :=
  repeat lazymatch goal with
    | |- safe _ _ (bind _ _) => apply safe_bind; [ | intros ? ]
    | |- safe _ _ (ret _) => apply safe_ret
    | |- safe _ _ (halt _) => apply safe_halt
    | |- safe _ _ (gets _) => apply safe_gets
    | |- safe _ _ (sh2_get _) => apply safe_sh2_get
    | |- safe _ _ (if ?c then _ else _) => destruct c
    | |- safe _ _ (match ?c with _ => _ end) => destruct c
    end.

(** *** The mutex is given back by every call that returns *)

Lemma bind_Done_inv {A B} (m : M A) (k : A -> M B) (s s2 : Hal) (tr : list Action) (b : B) :
  bind m k s = Done tr b s2 ->
  exists tr1 a s1 tr2,
    m s = Done tr1 a s1 /\ k a s1 = Done tr2 b s2 /\ tr = tr1 ++ tr2.
Proof.
  unfold bind. destruct (m s) as [tr1 a s1 | w tr1 s1]; [ | discriminate].
  destruct (k a s1) as [tr2 b' s2' | w tr2 s2'] eqn:Hk; [ | discriminate].
  intros H. injection H as <- <- <-. eauto 10.
Qed.

Lemma mutex_kept_bind {A B} (m : M A) (k : A -> M B) :
  mutex_kept m -> (forall a, mutex_kept (k a)) -> mutex_kept (bind m k).
Proof.
  intros Hm Hk s tr b s2 H.
  apply bind_Done_inv in H as (tr1 & a & s1 & tr2 & H1 & H2 & _).
  rewrite (Hk _ _ _ _ _ H2). exact (Hm _ _ _ _ H1).
Qed.

Lemma ends_with_bind {A B} (Q : B -> Hal -> Prop) (m : M A) (k : A -> M B) :
  (forall a, ends_with Q (k a)) -> ends_with Q (bind m k).
Proof.
  intros Hk s tr b s2 H.
  apply bind_Done_inv in H as (tr1 & a & s1 & tr2 & _ & H2 & _).
  exact (Hk _ _ _ _ _ H2).
Qed.

Lemma mutex_kept_ret {A} (a : A) : mutex_kept (ret a).
Proof. intros s tr a' s' H. injection H as _ _ <-. reflexivity. Qed.

Lemma mutex_kept_emit (a : Action) : mutex_kept (emit a).
Proof. intros s tr a' s' H. injection H as _ _ <-. reflexivity. Qed.

Lemma mutex_kept_halt {A} (w : Halt) : mutex_kept (@halt A w).
Proof. intros s tr a' s' H. discriminate. Qed.

Lemma mutex_kept_modify (f : Hal -> Hal) :
  (forall s, i2cMutex (f s) = i2cMutex s) -> mutex_kept (modify f).
Proof. intros Hf s tr a' s' H. injection H as _ _ <-. apply Hf. Qed.

Lemma mutex_kept_sh2_get (unit : N) : mutex_kept (sh2_get unit).
Proof.
  intros s tr a s' H. unfold sh2_get in H.
  destruct (sh2 s !! N.to_nat unit); [ | discriminate].
  injection H as _ _ <-. reflexivity.
Qed.

Lemma mutex_kept_sh2_set (unit : N) (f : Sh2_t -> Sh2_t) : mutex_kept (sh2_set unit f).
Proof.
  apply mutex_kept_bind; [apply mutex_kept_sh2_get | ].
  intros u. apply mutex_kept_modify. reflexivity.
Qed.

Ltac mutex_steps :=
  repeat lazymatch goal with
    | |- mutex_kept (bind _ _) => apply mutex_kept_bind; [ | intros ? ]
    | |- mutex_kept (ret _) => apply mutex_kept_ret
    | |- mutex_kept (halt _) => apply mutex_kept_halt
    | |- mutex_kept (emit _) => apply mutex_kept_emit
    | |- mutex_kept (sh2_get _) => apply mutex_kept_sh2_get
    | |- mutex_kept (sh2_set _ _) => apply mutex_kept_sh2_set
    | |- mutex_kept (if ?c then _ else _) => destruct c
    | |- mutex_kept (match ?c with _ => _ end) => destruct c
    end.

Section Mutex.
Context `{P : Platform}.

Lemma mutex_kept_i2cBlockingRx (addr len : Z) (pData : list byte) (r : BusReply) :
  mutex_kept (i2cBlockingRx addr pData len r).
Proof.
  intros s tr a s'. destruct s as [mx bs st rn q us].
  destruct r as [c i d]; unfold_hal; simpl.
  destruct mx; [discriminate | ].
  destruct (c =? 0), rn, i as [[] | ], bs; simpl; intros H;
    first [discriminate | injection H as _ _ <-; reflexivity].
Qed.

Lemma mutex_kept_i2cBlockingTx (addr len : Z) (pData : list byte) (r : BusReply) :
  mutex_kept (i2cBlockingTx addr pData len r).
Proof.
  intros s tr a s'. destruct s as [mx bs st rn q us].
  destruct r as [c i d]; unfold_hal; simpl.
  destruct mx; [discriminate | ].
  destruct (c =? 0), rn, i as [[] | ], bs; simpl; intros H;
    first [discriminate | injection H as _ _ <-; reflexivity].
Qed.

(** A reset that returns found the mutex free, and leaves it free with
    the peripheral marked for re-initialisation. *)
Lemma sh2_hal_reset_ends (unit : N) (dfuMode : bool) (onRx cookie : Z)
    (s s' : Hal) (tr : list Action) (a : Z) :
  (unit < SH2_UNITS)%N ->
  sh2_hal_reset unit dfuMode onRx cookie s = Done tr a s' ->
  i2cMutex s = false /\ a = SH2_OK /\ i2cMutex s' = false /\ i2cResetNeeded s' = true.
Proof.
  intros Hu H. unfold sh2_hal_reset in H.
  rewrite (proj2 (N.leb_gt SH2_UNITS unit)) in H by exact Hu.
  split.
  { unfold bind at 1, xSemaphoreTake_i2cMutex in H.
    destruct (i2cMutex s); [discriminate | reflexivity]. }
  refine ((_ : ends_with
             (fun a s' => a = SH2_OK /\ i2cMutex s' = false /\ i2cResetNeeded s' = true) _)
            _ _ _ _ H).
  clear.
  repeat match goal with
         | |- ends_with _ (bind ?m _) =>
             lazymatch m with
             | modify _ => fail
             | _ => apply ends_with_bind; intros ?
             end
         end.
  intros ? ? ? ? H. unfold_hal. simpl in H. injection H as _ <- <-. auto.
Qed.

Lemma mutex_kept_sh2_hal_reset (unit : N) (dfuMode : bool) (onRx cookie : Z) :
  mutex_kept (sh2_hal_reset unit dfuMode onRx cookie).
Proof.
  intros s tr a s' H.
  destruct (N.leb_spec SH2_UNITS unit) as [Hbad | Hok].
  - unfold sh2_hal_reset in H. rewrite (proj2 (N.leb_le _ _) Hbad) in H.
    injection H as _ _ <-. reflexivity.
  - destruct (sh2_hal_reset_ends _ _ _ _ _ _ _ _ Hok H) as (-> & _ & -> & _).
    reflexivity.
Qed.

Lemma mutex_kept_halTask_event (event : Event_t) (r : BusReply) :
  mutex_kept (halTask_event event r).
Proof.
  unfold halTask_event. mutex_steps. apply mutex_kept_i2cBlockingRx.
Qed.

Lemma mutex_kept_run_call (c : Call) : mutex_kept (run_call c).
Proof.
  destruct c; cbn [run_call].
  - apply mutex_kept_bind; [apply mutex_kept_sh2_hal_reset | intros; apply mutex_kept_ret].
  - unfold sh2_hal_tx. mutex_steps. apply mutex_kept_i2cBlockingTx.
  - unfold sh2_hal_rx. mutex_steps. apply mutex_kept_i2cBlockingRx.
  - unfold sh2_hal_block. mutex_steps.
  - unfold sh2_hal_unblock. mutex_steps.
  - unfold HAL_GPIO_EXTI_Callback, xQueueSendFromISR.
    apply mutex_kept_modify. intros s.
    destruct (Z.of_nat (length (evtQueue s)) <? MAX_EVENTS); reflexivity.
  - unfold halTask_iter. apply mutex_kept_bind; [ | intros; apply mutex_kept_halTask_event].
    intros s tr a s' H. unfold xQueueReceive in H.
    destruct (evtQueue s); [discriminate | ]. injection H as _ _ <-. reflexivity.
Qed.

Lemma mutex_kept_run_calls (cs : list Call) : mutex_kept (run_calls cs).
Proof.
  induction cs as [ | c cs IH]; cbn [run_calls].
  - apply mutex_kept_ret.
  - apply mutex_kept_bind; [apply mutex_kept_run_call | intros _; exact IH].
Qed.

End Mutex.

(** *** What a bus transaction leaves alone *)

Section Frames.
Context `{P : Platform}.

Lemma i2cBlockingRx_frame (addr len : Z) (pData : list byte) (r : BusReply) (s : Hal) :
  sh2 (res_state (i2cBlockingRx addr pData len r s)) = sh2 s
  /\ evtQueue (res_state (i2cBlockingRx addr pData len r s)) = evtQueue s
  /\ Forall bus_action (res_trace (i2cBlockingRx addr pData len r s))
  /\ (bus_is_fresh s ->
      bus_is_fresh (res_state (i2cBlockingRx addr pData len r s))
      /\ Forall not_reinit (res_trace (i2cBlockingRx addr pData len r s))).
Proof.
  destruct s as [mx bs st rn q us]. unfold bus_is_fresh.
  destruct r as [c i d]; unfold_hal; simpl.
  destruct mx, (c =? 0), rn, i as [[] | ], bs; simpl;
    repeat split; try discriminate; repeat constructor.
Qed.

Lemma i2cBlockingTx_frame (addr len : Z) (pData : list byte) (r : BusReply) (s : Hal) :
  sh2 (res_state (i2cBlockingTx addr pData len r s)) = sh2 s
  /\ evtQueue (res_state (i2cBlockingTx addr pData len r s)) = evtQueue s
  /\ Forall bus_action (res_trace (i2cBlockingTx addr pData len r s))
  /\ (bus_is_fresh s ->
      bus_is_fresh (res_state (i2cBlockingTx addr pData len r s))
      /\ Forall not_reinit (res_trace (i2cBlockingTx addr pData len r s))).
Proof.
  destruct s as [mx bs st rn q us]. unfold bus_is_fresh.
  destruct r as [c i d]; unfold_hal; simpl.
  destruct mx, (c =? 0), rn, i as [[] | ], bs; simpl;
    repeat split; try discriminate; repeat constructor.
Qed.

Lemma xQueueReceive_frame (s : Hal) :
  sh2 (res_state (xQueueReceive s)) = sh2 s
  /\ i2cResetNeeded (res_state (xQueueReceive s)) = i2cResetNeeded s
  /\ res_trace (xQueueReceive s) = [].
Proof. unfold xQueueReceive. destruct (evtQueue s); repeat split. Qed.

(** **** The stored address of a unit *)

Lemma addr_is_frame (unit : N) (a : Z) (s s' : Hal) :
  sh2 s' = sh2 s -> addr_is unit a s -> addr_is unit a s'.
Proof. intros H. unfold addr_is. rewrite H. auto. Qed.

Lemma addr_safe_sh2_set (unit unit' : N) (a : Z) (Pa : Action -> Prop)
    (f : Sh2_t -> Sh2_t) :
  unit' <> unit \/ (forall u, addr (f u) = addr u) ->
  safe (addr_is unit a) Pa (sh2_set unit' f).
Proof.
  intros Hf. apply safe_sh2_set. intros s u' (u & Hl & Ha) Hl'.
  unfold addr_is. cbn [sh2 set_sh2].
  destruct (N.eq_dec unit' unit) as [-> | Hne].
  - destruct Hf as [Hf | Hf]; [congruence | ].
    rewrite Hl in Hl'. injection Hl' as <-.
    exists (f u). split; [ | rewrite Hf; exact Ha].
    apply list_lookup_insert_eq. eapply lookup_lt_Some. exact Hl.
  - exists u. split; [ | exact Ha].
    rewrite list_lookup_insert_ne by lia. exact Hl.
Qed.

Lemma addr_safe_frame {A} (unit : N) (a : Z) (m : M A) :
  (forall s, sh2 (res_state (m s)) = sh2 s) ->
  safe (addr_is unit a) (fun _ => True) m.
Proof.
  intros H s Hs. split.
  - eapply addr_is_frame; [apply H | exact Hs].
  - apply Forall_forall. auto.
Qed.

End Frames.

Ltac addr_steps :=
  safe_steps;
  lazymatch goal with
  | |- safe _ _ (sh2_set _ _) => apply addr_safe_sh2_set; auto
  | |- safe _ _ (emit _) => apply safe_emit; exact I
  | |- safe _ _ (modify _) => apply safe_modify; intros s0; apply addr_is_frame; reflexivity
  | |- safe _ _ (i2cBlockingRx _ _ _ _) =>
      apply addr_safe_frame; intros s0; apply i2cBlockingRx_frame
  | |- safe _ _ (i2cBlockingTx _ _ _ _) =>
      apply addr_safe_frame; intros s0; apply i2cBlockingTx_frame
  | |- safe _ _ xQueueReceive =>
      apply addr_safe_frame; intros s0; apply xQueueReceive_frame
  | |- safe _ _ xSemaphoreTake_i2cMutex =>
      apply addr_safe_frame; intros s0; unfold xSemaphoreTake_i2cMutex;
      destruct (i2cMutex s0); reflexivity
  | |- _ => idtac
  end.

Section Address.
Context `{P : Platform}.

Lemma addr_safe_run_call (unit : N) (a : Z) (c : Call) :
  resets_unit unit c = false ->
  safe (addr_is unit a) (fun _ => True) (run_call c).
Proof.
  intros Hc. destruct c as [unit' dfu cb ck | | | | | | ]; cbn [run_call].
  - cbn [resets_unit] in Hc. apply N.eqb_neq in Hc.
    unfold sh2_hal_reset, xSemaphoreGive_i2cMutex, vTaskDelay, call_ptr,
      call_GpioFn, HAL_GPIO_WritePin.
    addr_steps.
  - unfold sh2_hal_tx. addr_steps.
  - unfold sh2_hal_rx. addr_steps.
  - unfold sh2_hal_block. addr_steps.
  - unfold sh2_hal_unblock. addr_steps.
  - unfold HAL_GPIO_EXTI_Callback, xQueueSendFromISR.
    apply safe_modify. intros s. apply addr_is_frame.
    destruct (Z.of_nat (length (evtQueue s)) <? MAX_EVENTS); reflexivity.
  - unfold halTask_iter, halTask_event. addr_steps.
Qed.

Lemma addr_safe_run_calls (unit : N) (a : Z) (cs : list Call) :
  forallb (fun c => negb (resets_unit unit c)) cs = true ->
  safe (addr_is unit a) (fun _ => True) (run_calls cs).
Proof.
  induction cs as [ | c cs IH]; cbn [run_calls forallb]; intros Hcs.
  - apply safe_ret.
  - apply andb_true_iff in Hcs as [Hc Hcs]. apply negb_true_iff in Hc.
    apply safe_bind; [apply addr_safe_run_call; exact Hc | intros _; exact (IH Hcs)].
Qed.

End Address.

(** ** Reset, then transfers *)

Section Reset.
Context `{P : Platform}.

Lemma unit_addr_wrap16 (unit : N) (dfuMode : bool) :
  wrap16 (unit_addr unit dfuMode) = unit_addr unit dfuMode.
Proof. unfold unit_addr. destruct (unit =? 1)%N, dfuMode; reflexivity. Qed.

Lemma sh2_set_Done_inv (unit : N) (f : Sh2_t -> Sh2_t) (s s' : Hal)
    (tr : list Action) (a : ()) :
  sh2_set unit f s = Done tr a s' ->
  exists u, sh2 s !! N.to_nat unit = Some u
            /\ s' = set_sh2 (<[N.to_nat unit := f u]> (sh2 s)) s.
Proof.
  unfold sh2_set, sh2_get, bind, modify.
  destruct (sh2 s !! N.to_nat unit) as [u | ]; simpl; [ | discriminate].
  intros H. injection H as _ _ <-. eauto.
Qed.

(** The address that a reset stores. *)
Lemma sh2_hal_reset_addr (unit : N) (dfuMode : bool) (onRx cookie : Z)
    (s s' : Hal) (tr : list Action) (a : Z) :
  (unit < SH2_UNITS)%N ->
  sh2_hal_reset unit dfuMode onRx cookie s = Done tr a s' ->
  addr_is unit (unit_addr unit dfuMode) s'.
Proof.
  intros Hu H. unfold sh2_hal_reset in H.
  rewrite (proj2 (N.leb_gt SH2_UNITS unit)) in H by exact Hu.
  apply bind_Done_inv in H as (? & ? & s1 & ? & _ & H & _).
  apply bind_Done_inv in H as (? & ? & s2 & ? & _ & H & _).
  apply bind_Done_inv in H as (? & ? & s3 & ? & _ & H & _).
  apply bind_Done_inv in H as (? & ? & s4 & ? & Hset & H & _).
  apply sh2_set_Done_inv in Hset as (u & Hl & ->).
  rewrite unit_addr_wrap16 in H.
  assert (Hs4 : addr_is unit (unit_addr unit dfuMode)
                  (set_sh2 (<[N.to_nat unit := set_addr (unit_addr unit dfuMode) u]> (sh2 s3)) s3)).
  { eexists. split; [apply sh2_lookup_set with (u := u); exact Hl | reflexivity]. }
  match type of H with
  | ?rest _ = _ =>
      assert (Hsafe : safe (addr_is unit (unit_addr unit dfuMode)) (fun _ => True) rest)
  end.
  { unfold xSemaphoreGive_i2cMutex, vTaskDelay, call_ptr, call_GpioFn,
      HAL_GPIO_WritePin.
    addr_steps. }
  destruct (Hsafe _ Hs4) as [Hend _]. rewrite H in Hend. exact Hend.
Qed.

End Reset.

(** C5.  After sh2_hal_reset(unit, dfuMode, ...) returns SH2_OK for a
    valid unit, the address stored for the unit is the unit's DFU address
    constant when dfuMode is set and its SH-2 address constant otherwise
    (in the driver's 8-bit form, the 7-bit constant shifted left by one);
    and after any calls that return and do not reset that unit again,
    sh2_hal_tx and sh2_hal_rx for the unit request their transfer at
    exactly that address. *)
Theorem reset_address_is_used `{P : Platform}
    (unit : N) (dfuMode : bool) (onRx cookie : Z) (s s1 : Hal) (tr : list Action) :
  (unit < SH2_UNITS)%N ->
  sh2_hal_reset unit dfuMode onRx cookie s = Done tr SH2_OK s1 ->
  let a := if (unit =? 1)%N
           then if dfuMode then Z.shiftl ADDR_DFU_1 1 else Z.shiftl ADDR_SH2_1 1
           else if dfuMode then Z.shiftl ADDR_DFU_0 1 else Z.shiftl ADDR_SH2_0 1 in
  addr_is unit a s1
  /\ forall cs tr2 s2,
       forallb (fun c => negb (resets_unit unit c)) cs = true ->
       run_calls cs s1 = Done tr2 tt s2 ->
       addr_is unit a s2
       /\ forall pData len r, 0 < len ->
            filter is_transfer (res_trace (sh2_hal_tx unit pData len r s2))
            = [I2cTransmitIT a pData len]
            /\ filter is_transfer (res_trace (sh2_hal_rx unit pData len r s2))
               = [I2cReceiveIT a len].
Proof.
  intros Hu Hreset a.
  pose proof (sh2_hal_reset_addr _ _ _ _ _ _ _ _ Hu Hreset) as Ha1.
  fold a in Ha1. change (unit_addr unit dfuMode) with a in Ha1.
  destruct (sh2_hal_reset_ends _ _ _ _ _ _ _ _ Hu Hreset) as (_ & _ & Hm1 & _).
  split; [exact Ha1 | ].
  intros cs tr2 s2 Hcs Hrun.
  destruct (addr_safe_run_calls unit a cs Hcs s1 Ha1) as [Ha2 _].
  rewrite Hrun in Ha2. cbn [res_state] in Ha2.
  pose proof (mutex_kept_run_calls cs _ _ _ _ Hrun) as Hm2. rewrite Hm1 in Hm2.
  split; [exact Ha2 | ].
  intros pData len r Hlen.
  destruct Ha2 as (u & Hl & <-).
  assert (Hne : len <> 0) by lia.
  split.
  - apply (sh2_hal_tx_transfer unit pData len r s2 u Hu Hne Hl Hm2).
  - apply (sh2_hal_rx_transfer unit pData len r s2 u Hu Hne Hl Hm2).
Qed.

(** Unit 0 reset into DFU mode: address 0x50, still used for a write
    after an interrupt has been served by the worker task. *)
Lemma reset_address_is_used_witness :
  let s0 := res_state (@sh2_hal_init nucleo (@boot nucleo)) in
  let s1 := res_state (@sh2_hal_reset nucleo 0%N true 0x2000 7 s0) in
  let s2 := res_state (@run_calls nucleo [Exti 0 5; Worker header20] s1) in
  addr_is 0%N 0x50 s1
  /\ filter is_transfer (res_trace (@sh2_hal_tx nucleo 0%N [x01] 1 refused s2))
     = [I2cTransmitIT 0x50 [x01] 1].
Proof.
  intros s0 s1 s2.
  destruct (@reset_address_is_used nucleo 0%N true 0x2000 7 s0 s1
              (res_trace (@sh2_hal_reset nucleo 0%N true 0x2000 7 s0)))
    as (Ha & Hafter).
  - reflexivity.
  - vm_compute. reflexivity.
  - split; [exact Ha | ].
    destruct (Hafter [Exti 0 5; Worker header20]
                (res_trace (@run_calls nucleo [Exti 0 5; Worker header20] s1)) s2)
      as (_ & Htx).
    + reflexivity.
    + vm_compute. reflexivity.
    + destruct (Htx [x01] 1 refused) as (Ht & _); [lia | exact Ht].
Defined.

(** ** Re-initialisation of the peripheral *)

Ltac fresh_steps :=
  safe_steps;
  lazymatch goal with
  | |- safe _ _ (sh2_set _ _) => apply safe_sh2_set; intros s0 u0 Hs0 _; exact Hs0
  | |- safe _ _ (emit _) => apply safe_emit; reflexivity
  | |- safe _ _ (i2cBlockingRx _ _ _ _) =>
      intros s0 Hs0; apply i2cBlockingRx_frame; exact Hs0
  | |- safe _ _ (i2cBlockingTx _ _ _ _) =>
      intros s0 Hs0; apply i2cBlockingTx_frame; exact Hs0
  | |- _ => idtac
  end.

Section Reinit.
Context `{P : Platform}.

Lemma i2cBlockingRx_reinit (addr len : Z) (pData : list byte) (r : BusReply) (s : Hal) :
  i2cMutex s = false -> i2cResetNeeded s = true ->
  (exists rest,
     res_trace (i2cBlockingRx addr pData len r s)
     = MutexTake :: I2cDeInit :: I2cInit :: I2cReceiveIT addr len :: rest
     /\ Forall not_reinit rest)
  /\ i2cResetNeeded (res_state (i2cBlockingRx addr pData len r s)) = false.
Proof.
  destruct s as [mx bs st rn q us]. simpl. intros -> ->.
  destruct r as [c i d]; unfold_hal; simpl.
  destruct (c =? 0), i as [[] | ], bs; simpl;
    (split; [eexists; split; [reflexivity | repeat constructor] | reflexivity]).
Qed.

Lemma i2cBlockingTx_reinit (addr len : Z) (pData : list byte) (r : BusReply) (s : Hal) :
  i2cMutex s = false -> i2cResetNeeded s = true ->
  (exists rest,
     res_trace (i2cBlockingTx addr pData len r s)
     = MutexTake :: I2cDeInit :: I2cInit :: I2cTransmitIT addr pData len :: rest
     /\ Forall not_reinit rest)
  /\ i2cResetNeeded (res_state (i2cBlockingTx addr pData len r s)) = false.
Proof.
  destruct s as [mx bs st rn q us]. simpl. intros -> ->.
  destruct r as [c i d]; unfold_hal; simpl.
  destruct (c =? 0), i as [[] | ], bs; simpl;
    (split; [eexists; split; [reflexivity | repeat constructor] | reflexivity]).
Qed.

Lemma fresh_safe_run_call (c : Call) :
  is_reset c = false -> safe bus_is_fresh not_reinit (run_call c).
Proof.
  intros Hc. destruct c; cbn [run_call]; try discriminate Hc.
  - unfold sh2_hal_tx. fresh_steps.
  - unfold sh2_hal_rx. fresh_steps.
  - unfold sh2_hal_block. fresh_steps.
  - unfold sh2_hal_unblock. fresh_steps.
  - unfold HAL_GPIO_EXTI_Callback, xQueueSendFromISR.
    apply safe_modify. intros s Hs.
    destruct (Z.of_nat (length (evtQueue s)) <? MAX_EVENTS); exact Hs.
  - unfold halTask_iter, halTask_event. fresh_steps.
    intros s Hs. unfold bus_is_fresh in *.
    destruct (xQueueReceive_frame s) as (_ & -> & ->). split; [exact Hs | constructor].
Qed.

Lemma fresh_safe_run_calls (cs : list Call) :
  forallb (fun c => negb (is_reset c)) cs = true ->
  safe bus_is_fresh not_reinit (run_calls cs).
Proof.
  induction cs as [ | c cs IH]; cbn [run_calls forallb]; intros Hcs.
  - apply safe_ret.
  - apply andb_true_iff in Hcs as [Hc Hcs]. apply negb_true_iff in Hc.
    apply safe_bind; [apply fresh_safe_run_call; exact Hc | intros _; exact (IH Hcs)].
Qed.

(** What a reset does when the unit has its control lines and the mutex
    is free. *)
Lemma sh2_hal_reset_run
    (unit : N) (dfuMode : bool) (onRx cookie : Z) (s : Hal) (u : Sh2_t) :
  (unit < SH2_UNITS)%N ->
  sh2 s !! N.to_nat unit = Some u ->
  rstn u = Some rstn0 ->
  bootn u = Some bootn0 ->
  i2cMutex s = false ->
  sh2_hal_reset unit dfuMode onRx cookie s
  = Done ([MutexTake; GpioWritePin RSTN_PIN false; GpioWritePin BOOTN_PIN (negb dfuMode);
           TaskDelay RESET_DELAY; GpioWritePin RSTN_PIN true]
          ++ (if dfuMode then [TaskDelay DFU_BOOT_DELAY] else [])
          ++ [MutexGive])
         SH2_OK
         (set_i2cResetNeeded true
            (set_sh2 (<[N.to_nat unit :=
                          set_addr (unit_addr unit dfuMode)
                            (set_onRx onRx (set_onRxCookie cookie u))]> (sh2 s)) s)).
Proof.
  intros Hu Hl Hr Hb Hm.
  destruct s as [mx bs st rn q us]. cbn [i2cMutex sh2] in *. subst mx.
  unfold sh2_hal_reset.
  rewrite (proj2 (N.leb_gt SH2_UNITS unit)) by exact Hu.
  rewrite unit_addr_wrap16.
  set (s1 := {| i2cMutex := true; i2cBlockSem := bs; i2cStatus := st;
                i2cResetNeeded := rn; evtQueue := q; sh2 := us |}).
  rewrite (bind_Done _ _ _ _ _ _
             (eq_refl : xSemaphoreTake_i2cMutex (set_i2cMutex false s1)
                        = Done [MutexTake] tt s1)).
  assert (Hl1 : sh2 s1 !! N.to_nat unit = Some u) by exact Hl.
  rewrite (bind_Done_nil _ _ _ _ _ (sh2_set_run _ _ _ _ Hl1)).
  pose proof (sh2_lookup_set _ _ (set_onRxCookie cookie u) _ Hl1) as Hl2.
  rewrite (bind_Done_nil _ _ _ _ _ (sh2_set_run _ _ _ _ Hl2)).
  pose proof (sh2_lookup_set _ _ (set_onRx onRx (set_onRxCookie cookie u)) _ Hl2) as Hl3.
  rewrite (bind_Done_nil _ _ _ _ _ (sh2_set_run _ _ _ _ Hl3)).
  pose proof (sh2_lookup_set _ _
                (set_addr (unit_addr unit dfuMode) (set_onRx onRx (set_onRxCookie cookie u)))
                _ Hl3) as Hl4.
  rewrite (bind_Done_nil _ _ _ _ _ (sh2_get_run _ _ _ Hl4)).
  cbn [rstn bootn set_addr set_onRx set_onRxCookie]. rewrite Hr.
  rewrite (bind_Done _ _ _ _ _ _ (eq_refl : call_ptr (Some rstn0) false _ = _)).
  rewrite (bind_Done_nil _ _ _ _ _ (sh2_get_run _ _ _ Hl4)).
  cbn [rstn bootn set_addr set_onRx set_onRxCookie]. rewrite Hb.
  rewrite (bind_Done _ _ _ _ _ _ (eq_refl : call_ptr (Some bootn0) (negb dfuMode) _ = _)).
  rewrite (bind_Done _ _ _ _ _ _ (eq_refl : vTaskDelay RESET_DELAY _ = _)).
  rewrite (bind_Done_nil _ _ _ _ _ (sh2_get_run _ _ _ Hl4)).
  cbn [rstn bootn set_addr set_onRx set_onRxCookie]. rewrite Hr.
  rewrite (bind_Done _ _ _ _ _ _ (eq_refl : call_ptr (Some rstn0) true _ = _)).
  cbn [sh2 set_sh2]. rewrite !list_insert_insert_eq.
  destruct dfuMode; reflexivity.
Qed.

End Reinit.

(** C6.  A sh2_hal_reset of a valid unit sets i2cResetNeeded whatever the
    flag was before.  Called for a unit with its control lines attached
    and with the mutex free, it returns SH2_OK with the flag set, also
    when the flag was clear; and every reset that returns SH2_OK leaves
    the flag set.  With the flag set by the reset, a bus transaction
    (read or write) takes the mutex, de-initialises and initialises the
    peripheral, and only then requests the transfer; it leaves the flag
    cleared.  From there on no call other than a reset re-initialises the
    peripheral. *)
Theorem reset_forces_one_reinit `{P : Platform}
    (unit : N) (dfuMode : bool) (onRx cookie : Z) (s : Hal) :
  (unit < SH2_UNITS)%N ->
  (forall u,
     sh2 s !! N.to_nat unit = Some u ->
     rstn u = Some rstn0 ->
     bootn u = Some bootn0 ->
     i2cMutex s = false ->
     exists tr s1,
       sh2_hal_reset unit dfuMode onRx cookie s = Done tr SH2_OK s1
       /\ i2cResetNeeded s1 = true)
  /\ forall tr s1,
       sh2_hal_reset unit dfuMode onRx cookie s = Done tr SH2_OK s1 ->
       i2cResetNeeded s1 = true
       /\ forall addr len pData r,
            let rx := i2cBlockingRx addr pData len r s1 in
            let tx := i2cBlockingTx addr pData len r s1 in
            (exists rest,
               res_trace rx
               = MutexTake :: I2cDeInit :: I2cInit :: I2cReceiveIT addr len :: rest
               /\ Forall not_reinit rest)
            /\ (exists rest,
                  res_trace tx
                  = MutexTake :: I2cDeInit :: I2cInit :: I2cTransmitIT addr pData len :: rest
                  /\ Forall not_reinit rest)
            /\ i2cResetNeeded (res_state rx) = false
            /\ i2cResetNeeded (res_state tx) = false
            /\ forall cs, forallb (fun c => negb (is_reset c)) cs = true ->
                 Forall not_reinit (res_trace (run_calls cs (res_state rx)))
                 /\ i2cResetNeeded (res_state (run_calls cs (res_state rx))) = false
                 /\ Forall not_reinit (res_trace (run_calls cs (res_state tx)))
                 /\ i2cResetNeeded (res_state (run_calls cs (res_state tx))) = false.
Proof.
  intros Hu. split.
  - intros u Hl Hr Hb Hm.
    eexists _, _. split.
    + exact (sh2_hal_reset_run unit dfuMode onRx cookie s u Hu Hl Hr Hb Hm).
    + reflexivity.
  - intros tr s1 Hreset.
    destruct (sh2_hal_reset_ends _ _ _ _ _ _ _ _ Hu Hreset) as (_ & _ & Hm1 & Hflag).
    split; [exact Hflag | ].
    intros addr len pData r rx tx.
    destruct (i2cBlockingRx_reinit addr len pData r s1 Hm1 Hflag) as [Hrx Hrxf].
    destruct (i2cBlockingTx_reinit addr len pData r s1 Hm1 Hflag) as [Htx Htxf].
    split; [exact Hrx | ]. split; [exact Htx | ].
    split; [exact Hrxf | ]. split; [exact Htxf | ].
    intros cs Hcs.
    destruct (fresh_safe_run_calls cs Hcs (res_state rx) Hrxf) as [Hr1 Hr2].
    destruct (fresh_safe_run_calls cs Hcs (res_state tx) Htxf) as [Ht1 Ht2].
    auto.
Qed.

(** Unit 0 once an interrupt has been served, so that the peripheral is
    initialised and the flag clear: a reset sets the flag, and the read
    that follows re-initialises the bus. *)
Lemma reset_forces_one_reinit_witness :
  let s := res_state (@halTask_event nucleo intn_event header20 ready) in
  i2cResetNeeded s = false
  /\ exists tr s1,
       @sh2_hal_reset nucleo 0%N true 0x2000 7 s = Done tr 0 s1
       /\ i2cResetNeeded s1 = true
       /\ exists rest,
            res_trace (@i2cBlockingRx nucleo 0x50 [x00; x00; x00; x00] 4 header20 s1)
            = MutexTake :: I2cDeInit :: I2cInit :: I2cReceiveIT 0x50 4 :: rest
            /\ Forall not_reinit rest.
Proof.
  intros s.
  destruct (@reset_forces_one_reinit nucleo 0%N true 0x2000 7 s) as [Hruns Hafter].
  - reflexivity.
  - split; [vm_compute; reflexivity | ].
    destruct (Hruns (default (@sh2_zero nucleo) (sh2 s !! 0%nat)))
      as (tr & s1 & Hreset & Hflag).
    + vm_compute. reflexivity.
    + vm_compute. reflexivity.
    + vm_compute. reflexivity.
    + vm_compute. reflexivity.
    + exists tr, s1. split; [exact Hreset | ]. split; [exact Hflag | ].
      destruct (Hafter tr s1 Hreset) as (_ & Hfirst).
      destruct (Hfirst 0x50 4 [x00; x00; x00; x00] header20) as (Hrx & _).
      exact Hrx.
Defined.

(** ** Which unit the pipeline serves *)

Ltac queue_steps :=
  safe_steps;
  lazymatch goal with
  | |- safe _ _ (sh2_set _ _) => apply safe_sh2_set; intros s0 u0 Hs0 _; exact Hs0
  | |- safe _ _ (emit _) => apply safe_emit; first [exact I | assumption | reflexivity]
  | |- safe _ _ (modify _) => apply safe_modify; intros s0 Hs0; exact Hs0
  | |- safe _ _ xSemaphoreTake_i2cMutex =>
      intros s0 Hs0; unfold xSemaphoreTake_i2cMutex;
      destruct (i2cMutex s0); (split; [exact Hs0 | repeat constructor])
  | |- safe _ _ (i2cBlockingRx ?a ?d ?l ?r) =>
      intros s0 Hs0; destruct (i2cBlockingRx_frame a l d r s0) as (_ & Hq0 & Hb0 & _);
      unfold queue_for_unit0; rewrite Hq0; split;
      [exact Hs0 | eapply Forall_impl; [exact Hb0 | intros [] Hx; solve [exact I | destruct Hx]]]
  | |- safe _ _ (i2cBlockingTx ?a ?d ?l ?r) =>
      intros s0 Hs0; destruct (i2cBlockingTx_frame a l d r s0) as (_ & Hq0 & Hb0 & _);
      unfold queue_for_unit0; rewrite Hq0; split;
      [exact Hs0 | eapply Forall_impl; [exact Hb0 | intros [] Hx; solve [exact I | destruct Hx]]]
  | |- _ => idtac
  end.

Section Pipeline.
Context `{P : Platform}.

Lemma queue_safe_halTask_event (event : Event_t) (r : BusReply) :
  unit event = 0%N ->
  safe queue_for_unit0 delivers_to_unit0 (halTask_event event r).
Proof.
  intros He. unfold halTask_event. queue_steps.
Qed.

Lemma queue_safe_run_call (c : Call) :
  safe queue_for_unit0 delivers_to_unit0 (run_call c).
Proof.
  destruct c; cbn [run_call].
  - unfold sh2_hal_reset, xSemaphoreGive_i2cMutex, vTaskDelay, call_ptr,
      call_GpioFn, HAL_GPIO_WritePin.
    queue_steps.
  - unfold sh2_hal_tx. queue_steps.
  - unfold sh2_hal_rx. queue_steps.
  - unfold sh2_hal_block. queue_steps.
  - unfold sh2_hal_unblock. queue_steps.
  - unfold HAL_GPIO_EXTI_Callback, xQueueSendFromISR.
    apply safe_modify. intros s Hs. unfold queue_for_unit0 in *.
    destruct (Z.of_nat (length (evtQueue s)) <? MAX_EVENTS); [ | exact Hs].
    cbn [evtQueue set_evtQueue]. apply Forall_app. split; [exact Hs | ].
    repeat constructor.
  - intros s Hs. unfold halTask_iter, bind, xQueueReceive.
    unfold queue_for_unit0 in Hs.
    destruct (evtQueue s) as [ | e q] eqn:Hq.
    + simpl. split; [unfold queue_for_unit0; rewrite Hq; constructor | constructor].
    + apply Forall_cons in Hs as [[He _] Hrest].
      destruct (queue_safe_halTask_event e r He (set_evtQueue q s) Hrest) as [H1 H2].
      destruct (halTask_event e r (set_evtQueue q s)); simpl in *; auto.
Qed.

Lemma queue_safe_run_calls (cs : list Call) :
  safe queue_for_unit0 delivers_to_unit0 (run_calls cs).
Proof.
  induction cs as [ | c cs IH]; cbn [run_calls].
  - apply safe_ret.
  - apply safe_bind; [apply queue_safe_run_call | intros _; exact IH].
Qed.

Lemma queue_safe_sh2_hal_init :
  safe queue_for_unit0 delivers_to_unit0 sh2_hal_init.
Proof.
  unfold sh2_hal_init.
  repeat lazymatch goal with
    | |- safe _ _ (bind _ _) => apply safe_bind; [ | intros ? ]
    | |- safe _ _ (for_units _ _) => apply safe_for_units; intros ?
    end;
    unfold call_ptr, call_GpioFn, HAL_GPIO_WritePin.
  all: try solve [queue_steps].
  apply safe_modify. intros s _. constructor.
Qed.

End Pipeline.

(** C10.  Whatever pin number the EXTI callback is given, the event it
    posts (when the queue has room) has unit 0 and kind EVT_INTN; hence,
    from start-up and initialisation on, whatever calls and interrupts
    follow, every event in the queue is such an event and every delivery
    the worker task makes to a receive callback is for unit 0. *)
Theorem exti_events_are_for_unit0 `{P : Platform} :
  (forall n tick s,
     exists q',
       HAL_GPIO_EXTI_Callback n tick s = Done [] tt (set_evtQueue q' s)
       /\ (q' = evtQueue s
           \/ q' = evtQueue s ++ [{| t_ms := tick; id := EVT_INTN; unit := 0%N |}]))
  /\ forall cs,
       let run := bind sh2_hal_init (fun _ => run_calls cs) boot in
       Forall delivers_to_unit0 (res_trace run)
       /\ queue_for_unit0 (res_state run).
Proof.
  split.
  - intros n tick s. unfold HAL_GPIO_EXTI_Callback, xQueueSendFromISR, modify.
    destruct (Z.of_nat (length (evtQueue s)) <? MAX_EVENTS).
    + eexists. split; [reflexivity | right; reflexivity].
    + exists (evtQueue s). split; [destruct s; reflexivity | left; reflexivity].
  - intros cs run.
    assert (Hsafe : safe queue_for_unit0 delivers_to_unit0
                      (bind sh2_hal_init (fun _ => run_calls cs))).
    { apply safe_bind; [apply queue_safe_sh2_hal_init | intros _; apply queue_safe_run_calls]. }
    destruct (Hsafe boot) as [Hq Ht]; [constructor | ].
    split; assumption.
Qed.

(** ** A read that fails *)

(** C3.  What the worker task does when the read fails.  Unit 0 has a
    callback; a first interrupt reads the 4-byte header that announces 20
    bytes, so 20 bytes are owed.  On the second interrupt the transfer
    request is refused and i2cBlockingRx returns SH2_ERR_IO (-4): the task
    nevertheless decodes the header left in the buffer by the first read,
    sets rxRemaining to 0 from it, and calls the callback with 20 bytes of
    that old buffer. *)
Theorem failed_read_is_decoded_and_delivered :
  let s1 := res_state (@halTask_event nucleo intn_event header20 ready) in
  let u1 := default (@sh2_zero nucleo) (sh2 s1 !! 0%nat) in
  let s2 := res_state (@halTask_event nucleo intn_event refused s1) in
  let u2 := default (@sh2_zero nucleo) (sh2 s2 !! 0%nat) in
  rxRemaining u1 = 20
  /\ (exists tr s', @i2cBlockingRx nucleo (addr u1) (rxBuf u1) 20 refused s1
                    = Done tr (@SH2_ERR_IO nucleo, rxBuf u1) s')
  /\ @halTask_event nucleo intn_event refused s1
     = Done [MutexTake; I2cReceiveIT 0x94 20; MutexGive;
             OnRx 0%N 0x2000 7 (rxBuf u1) 20 5000] tt s2
  /\ rxBuf u2 = rxBuf u1
  /\ rxRemaining u2 = 0.
Proof.
  vm_compute. repeat split; try reflexivity.
  eexists _, _. reflexivity.
Qed.

(** * Further properties of the translation unit *)

(** ** The event queue *)

Section Queue.
Context `{P : Platform}.

Lemma set_evtQueue_twice (q1 q2 : list Event_t) (s : Hal) :
  set_evtQueue q2 (set_evtQueue q1 s) = set_evtQueue q2 s.
Proof. reflexivity. Qed.

Lemma set_evtQueue_same (s : Hal) : set_evtQueue (evtQueue s) s = s.
Proof. destruct s; reflexivity. Qed.

Lemma exti_run (n tick : Z) (s : Hal) :
  HAL_GPIO_EXTI_Callback n tick s
  = Done [] tt
      (set_evtQueue
         (if Z.of_nat (length (evtQueue s)) <? MAX_EVENTS
          then evtQueue s ++ [intn_at tick] else evtQueue s) s).
Proof.
  unfold HAL_GPIO_EXTI_Callback, xQueueSendFromISR, modify.
  destruct (Z.of_nat (length (evtQueue s)) <? MAX_EVENTS); [reflexivity | ].
  rewrite set_evtQueue_same. reflexivity.
Qed.

End Queue.

(** X1.  A burst of sensor interrupts posted to a queue that is within its
    capacity makes no call and changes nothing but the queue, which
    becomes the first MAX_EVENTS (16) items of the old content followed
    by one event per interrupt, in order of arrival: when the queue runs
    full it is the newest events that are lost. *)
Theorem exti_burst_keeps_oldest `{P : Platform} (pts : list (Z * Z)) (s : Hal) :
  queue_in_capacity s ->
  run_calls (exti_burst pts) s
  = Done [] tt
      (set_evtQueue
         (take (Z.to_nat MAX_EVENTS) (evtQueue s ++ map (fun p => intn_at (snd p)) pts))
         s).
Proof.
  unfold queue_in_capacity. revert s.
  induction pts as [ | [n tick] pts IH]; intros s Hcap; cbn [exti_burst map run_calls].
  - rewrite app_nil_r, firstn_all2 by (unfold MAX_EVENTS in *; lia).
    rewrite set_evtQueue_same. reflexivity.
  - cbn [run_call fst snd].
    rewrite (bind_Done_nil _ _ _ _ _ (exti_run n tick s)).
    fold (exti_burst pts).
    destruct (Z.ltb_spec (Z.of_nat (length (evtQueue s))) MAX_EVENTS) as [Hroom | Hfull].
    + rewrite IH.
      * rewrite set_evtQueue_twice. cbn [evtQueue set_evtQueue].
        rewrite <- app_assoc. reflexivity.
      * cbn [evtQueue set_evtQueue]. rewrite length_app. cbn [length].
        unfold MAX_EVENTS in *. lia.
    + rewrite IH.
      * rewrite set_evtQueue_twice. cbn [evtQueue set_evtQueue].
        rewrite !take_app_le by (unfold MAX_EVENTS in *; lia). reflexivity.
      * exact Hcap.
Qed.

(** Eighteen interrupts after initialisation: the first sixteen stay. *)
Lemma exti_burst_keeps_oldest_witness :
  evtQueue (res_state (@run_calls nucleo
              (exti_burst (map (fun t => (13, t)) (seqZ 1 18)))
              (res_state (@sh2_hal_init nucleo (@boot nucleo)))))
  = map intn_at (seqZ 1 16).
Proof.
  rewrite (@exti_burst_keeps_oldest nucleo).
  - vm_compute. reflexivity.
  - vm_compute. congruence.
Defined.

Ltac capacity_steps :=
  safe_steps;
  lazymatch goal with
  | |- safe _ _ (sh2_set _ _) => apply safe_sh2_set; intros s0 u0 Hs0 _; exact Hs0
  | |- safe _ _ (emit _) => apply safe_emit; exact I
  | |- safe _ _ (modify _) => apply safe_modify; intros s0 Hs0; exact Hs0
  | |- safe _ _ xSemaphoreTake_i2cMutex =>
      intros s0 Hs0; unfold xSemaphoreTake_i2cMutex;
      destruct (i2cMutex s0); (split; [exact Hs0 | repeat constructor])
  | |- safe _ _ (i2cBlockingRx ?a ?d ?l ?r) =>
      intros s0 Hs0; destruct (i2cBlockingRx_frame a l d r s0) as (_ & Hq0 & _);
      unfold queue_in_capacity; rewrite Hq0; split;
      [exact Hs0 | apply Forall_forall; intros; exact I]
  | |- safe _ _ (i2cBlockingTx ?a ?d ?l ?r) =>
      intros s0 Hs0; destruct (i2cBlockingTx_frame a l d r s0) as (_ & Hq0 & _);
      unfold queue_in_capacity; rewrite Hq0; split;
      [exact Hs0 | apply Forall_forall; intros; exact I]
  | |- _ => idtac
  end.

Section Capacity.
Context `{P : Platform}.

Lemma capacity_safe_run_call (c : Call) :
  safe queue_in_capacity (fun _ => True) (run_call c).
Proof.
  destruct c; cbn [run_call].
  - unfold sh2_hal_reset, xSemaphoreGive_i2cMutex, vTaskDelay, call_ptr,
      call_GpioFn, HAL_GPIO_WritePin.
    capacity_steps.
  - unfold sh2_hal_tx. capacity_steps.
  - unfold sh2_hal_rx. capacity_steps.
  - unfold sh2_hal_block. capacity_steps.
  - unfold sh2_hal_unblock. capacity_steps.
  - intros s Hs. rewrite exti_run. cbn [res_state res_trace].
    split; [ | constructor]. unfold queue_in_capacity in *.
    cbn [evtQueue set_evtQueue].
    destruct (Z.ltb_spec (Z.of_nat (length (evtQueue s))) MAX_EVENTS); [ | exact Hs].
    rewrite length_app. cbn [length]. lia.
  - unfold halTask_iter. apply safe_bind.
    + intros s Hs. unfold xQueueReceive, queue_in_capacity in *.
      destruct (evtQueue s) as [ | e q] eqn:Hq; cbn [res_state res_trace].
      * split; [rewrite Hq; exact Hs | constructor].
      * split; [ | constructor]. cbn [evtQueue set_evtQueue length] in *. lia.
    + intros e. unfold halTask_event. capacity_steps.
Qed.

End Capacity.

(** X2.  The event queue never grows beyond MAX_EVENTS (16): whatever API
    calls, sensor interrupts and turns of the worker task follow one
    another, a queue that is within its capacity stays within it, also
    when one of the calls does not come back. *)
Theorem queue_stays_in_capacity `{P : Platform} (cs : list Call) (s : Hal) :
  queue_in_capacity s ->
  queue_in_capacity (res_state (run_calls cs s)).
Proof.
  revert s. induction cs as [ | c cs IH]; intros s Hs; cbn [run_calls].
  - exact Hs.
  - destruct (capacity_safe_run_call c s Hs) as [H1 _]. unfold bind.
    destruct (run_call c s) as [tr a s1 | w tr s1]; cbn [res_state] in *.
    + specialize (IH s1 H1).
      destruct (run_calls cs s1); cbn [res_state] in *; exact IH.
    + exact H1.
Qed.

(** Twenty interrupts, a worker turn, a reset and three more interrupts
    after initialisation. *)
Lemma queue_stays_in_capacity_witness :
  queue_in_capacity
    (res_state (@run_calls nucleo
       (exti_burst (map (fun t => (13, t)) (seqZ 1 20))
        ++ [Worker header20; CallReset 0%N false 0x2000 7]
        ++ exti_burst [(13, 30); (13, 31); (13, 32)])
       (res_state (@sh2_hal_init nucleo (@boot nucleo))))).
Proof.
  apply (@queue_stays_in_capacity nucleo).
  vm_compute. congruence.
Defined.

(** ** The bus mutex along a trace *)

Lemma lock_run_app (held : bool) (t1 t2 : list Action) :
  lock_run held (t1 ++ t2)
  = match lock_run held t1 with
    | Some held' => lock_run held' t2
    | None => None
    end.
Proof.
  revert held. induction t1 as [ | a t1 IH]; intros held; [reflexivity | ].
  destruct a, held; cbn [app lock_run]; auto.
Qed.

Section Discipline.
Context `{P : Platform}.

Lemma lock_step_bind {A B} (b b1 b2 : bool) (m : M A) (k : A -> M B) :
  lock_step b b1 m -> (forall a, lock_step b1 b2 (k a)) -> lock_step b b2 (bind m k).
Proof.
  intros Hm Hk s Hs. destruct (Hm s Hs) as [Ht Hd]. unfold bind.
  destruct (m s) as [tr a s1 | w tr s1] eqn:Hms; cbn [res_trace res_state] in *.
  - pose proof (Hd _ _ _ eq_refl) as Hs1.
    destruct (Hk a s1 Hs1) as [Ht' Hd'].
    destruct (k a s1) as [tr' c s2 | w tr' s2] eqn:Hks; cbn [res_trace res_state] in *.
    + split.
      * rewrite lock_run_app, Ht, Hs1. exact Ht'.
      * intros ? ? ? H. injection H as _ _ <-. exact (Hd' _ _ _ eq_refl).
    + split; [ | discriminate].
      rewrite lock_run_app, Ht, Hs1. exact Ht'.
  - split; [exact Ht | discriminate].
Qed.

Lemma lock_step_quiet {A} (b : bool) (m : M A) :
  (forall s, res_trace (m s) = [] /\ i2cMutex (res_state (m s)) = i2cMutex s) ->
  lock_step b b m.
Proof.
  intros H s Hs. destruct (H s) as [Ht Hm]. rewrite Ht, Hm, Hs.
  split; [reflexivity | ].
  intros tr a s' Hd. rewrite Hd in Hm. cbn in Hm. congruence.
Qed.

Lemma lock_step_ret {A} (b : bool) (a : A) : lock_step b b (ret a).
Proof. apply lock_step_quiet. intros s. split; reflexivity. Qed.

Lemma lock_step_halt {A} (b : bool) (w : Halt) : lock_step b b (@halt A w).
Proof. apply lock_step_quiet. intros s. split; reflexivity. Qed.

Lemma lock_step_gets {A} (b : bool) (f : Hal -> A) : lock_step b b (gets f).
Proof. apply lock_step_quiet. intros s. split; reflexivity. Qed.

Lemma lock_step_modify (b : bool) (f : Hal -> Hal) :
  (forall s, i2cMutex (f s) = i2cMutex s) -> lock_step b b (modify f).
Proof. intros Hf. apply lock_step_quiet. intros s. split; [reflexivity | apply Hf]. Qed.

Lemma lock_step_sh2_get (b : bool) (unit : N) : lock_step b b (sh2_get unit).
Proof.
  apply lock_step_quiet. intros s. unfold sh2_get.
  destruct (sh2 s !! N.to_nat unit); split; reflexivity.
Qed.

Lemma lock_step_sh2_set (b : bool) (unit : N) (f : Sh2_t -> Sh2_t) :
  lock_step b b (sh2_set unit f).
Proof.
  apply lock_step_quiet. intros s. unfold sh2_set, sh2_get, bind, modify.
  destruct (sh2 s !! N.to_nat unit); split; reflexivity.
Qed.

Lemma lock_step_emit (b : bool) (a : Action) :
  lock_run b [a] = Some b -> lock_step b b (emit a).
Proof.
  intros Ha s Hs. cbn [emit res_trace res_state]. rewrite Hs. split; [exact Ha | ].
  intros ? ? ? H. injection H as _ _ <-. exact Hs.
Qed.

Lemma lock_step_take : lock_step false true xSemaphoreTake_i2cMutex.
Proof.
  intros s Hs. unfold xSemaphoreTake_i2cMutex. rewrite Hs. split; [reflexivity | ].
  intros ? ? ? H. injection H as _ _ <-. reflexivity.
Qed.

Lemma lock_step_give : lock_step true false xSemaphoreGive_i2cMutex.
Proof.
  intros s Hs. unfold xSemaphoreGive_i2cMutex, bind, emit, modify. split; [reflexivity | ].
  intros ? ? ? H. injection H as _ _ <-. reflexivity.
Qed.

Lemma lock_step_i2cBlockingRx (addr len : Z) (pData : list byte) (r : BusReply) :
  lock_step false false (i2cBlockingRx addr pData len r).
Proof.
  intros s Hs. destruct s as [mx bs st rn q us]. cbn in Hs. subst mx.
  destruct r as [c i d]; unfold_hal; cbn.
  destruct (c =? 0), rn, i as [[] | ], bs; cbn; (split; [reflexivity | ]);
    intros ? ? ? H; first [discriminate | injection H as _ _ <-; reflexivity].
Qed.

Lemma lock_step_i2cBlockingTx (addr len : Z) (pData : list byte) (r : BusReply) :
  lock_step false false (i2cBlockingTx addr pData len r).
Proof.
  intros s Hs. destruct s as [mx bs st rn q us]. cbn in Hs. subst mx.
  destruct r as [c i d]; unfold_hal; cbn.
  destruct (c =? 0), rn, i as [[] | ], bs; cbn; (split; [reflexivity | ]);
    intros ? ? ? H; first [discriminate | injection H as _ _ <-; reflexivity].
Qed.

End Discipline.

Ltac lock_steps :=
  repeat lazymatch goal with
    | |- lock_step _ _ (bind xSemaphoreTake_i2cMutex _) =>
        apply (lock_step_bind false true); [apply lock_step_take | intros ? ]
    | |- lock_step _ _ (bind xSemaphoreGive_i2cMutex _) =>
        apply (lock_step_bind true false); [apply lock_step_give | intros ? ]
    | |- lock_step ?b _ (bind _ _) => apply (lock_step_bind b b); [ | intros ? ]
    | |- lock_step _ _ (ret _) => apply lock_step_ret
    | |- lock_step _ _ (halt _) => apply lock_step_halt
    | |- lock_step _ _ (gets _) => apply lock_step_gets
    | |- lock_step _ _ (sh2_get _) => apply lock_step_sh2_get
    | |- lock_step _ _ (sh2_set _ _) => apply lock_step_sh2_set
    | |- lock_step _ _ (emit _) => apply lock_step_emit; reflexivity
    | |- lock_step _ _ (modify _) => apply lock_step_modify; reflexivity
    | |- lock_step _ _ (i2cBlockingRx _ _ _ _) => apply lock_step_i2cBlockingRx
    | |- lock_step _ _ (i2cBlockingTx _ _ _ _) => apply lock_step_i2cBlockingTx
    | |- lock_step _ _ (if ?c then _ else _) => destruct c
    | |- lock_step _ _ (match ?c with _ => _ end) => destruct c
    end.

Section Discipline_calls.
Context `{P : Platform}.

Lemma lock_step_run_call (c : Call) : lock_step false false (run_call c).
Proof.
  destruct c; cbn [run_call].
  - unfold sh2_hal_reset, vTaskDelay, call_ptr, call_GpioFn, HAL_GPIO_WritePin.
    lock_steps.
  - unfold sh2_hal_tx. lock_steps.
  - unfold sh2_hal_rx. lock_steps.
  - unfold sh2_hal_block. lock_steps.
  - unfold sh2_hal_unblock. lock_steps.
  - apply lock_step_quiet. intros s. rewrite exti_run. split; reflexivity.
  - unfold halTask_iter, halTask_event.
    apply (lock_step_bind false false).
    + apply lock_step_quiet. intros s. unfold xQueueReceive.
      destruct (evtQueue s); split; reflexivity.
    + intros e. lock_steps.
Qed.

Lemma lock_step_run_calls (cs : list Call) : lock_step false false (run_calls cs).
Proof.
  induction cs as [ | c cs IH]; cbn [run_calls].
  - apply lock_step_ret.
  - apply (lock_step_bind false false); [apply lock_step_run_call | intros _; exact IH].
Qed.

End Discipline_calls.

(** X3.  Starting with the bus mutex free, whatever API calls, sensor
    interrupts and worker turns follow one another: the mutex is never
    taken while held nor given while free; every transfer request, every
    re-initialisation of the peripheral and every write to a control line
    happens while the mutex is held; every receive callback is entered
    with the mutex free; and if the sequence comes to its end the mutex
    is free again. *)
Theorem calls_respect_the_mutex `{P : Platform} (cs : list Call) (s : Hal) :
  i2cMutex s = false ->
  lock_run false (res_trace (run_calls cs s))
  = Some (i2cMutex (res_state (run_calls cs s)))
  /\ (returns (run_calls cs s) -> i2cMutex (res_state (run_calls cs s)) = false).
Proof.
  intros Hs. destruct (lock_step_run_calls cs s Hs) as [Ht Hd].
  split; [exact Ht | ].
  destruct (run_calls cs s) as [tr a s' | w tr s'] eqn:Hrun; [ | intros []].
  intros _. exact (Hd _ _ _ eq_refl).
Qed.

(** A reset into DFU mode, an interrupt served by the worker task, and a
    write whose completion interrupt never comes. *)
Lemma calls_respect_the_mutex_witness :
  lock_run false
    (res_trace (@run_calls nucleo
       [CallReset 0%N true 0x2000 7; Exti 13 5; Worker header20;
        CallTx 0%N [x01] 1 {| rc := 0; irq := None; rxData := [] |}]
       (res_state (@sh2_hal_init nucleo (@boot nucleo)))))
  = Some true.
Proof.
  destruct (@calls_respect_the_mutex nucleo
       [CallReset 0%N true 0x2000 7; Exti 13 5; Worker header20;
        CallTx 0%N [x01] 1 {| rc := 0; irq := None; rxData := [] |}]
       (res_state (@sh2_hal_init nucleo (@boot nucleo)))) as [Ht _].
  - reflexivity.
  - rewrite Ht. vm_compute. reflexivity.
Defined.

(** ** Initialisation *)

Section Init.
Context `{P : Platform}.

(** The first loop of [sh2_hal_init] clears the units one after the other. *)
Lemma for_units_clear (len a : nat) (s : Hal) :
  (a + len <= length (sh2 s))%nat ->
  for_units (map N.of_nat (seq a len)) (fun unit => sh2_set unit (fun _ => sh2_zero)) s
  = Done [] tt
      (set_sh2 (foldl (fun l i => <[i := sh2_zero]> l) (sh2 s) (seq a len)) s).
Proof.
  revert a s. induction len as [ | len IH]; intros a s Hlen; cbn [seq map for_units foldl].
  - unfold ret. destruct s; reflexivity.
  - assert (Hsome : is_Some (sh2 s !! N.to_nat (N.of_nat a))).
    { apply lookup_lt_is_Some. rewrite Nat2N.id. lia. }
    destruct Hsome as [u Hu].
    rewrite (bind_Done_nil _ _ _ _ _ (sh2_set_run _ _ _ _ Hu)).
    rewrite IH by (cbn [sh2 set_sh2]; rewrite length_insert; lia).
    rewrite Nat2N.id. reflexivity.
Qed.

Lemma cleared_length (l : list Sh2_t) (a len : nat) :
  length (foldl (fun l i => <[i := sh2_zero]> l) l (seq a len)) = length l.
Proof.
  revert a l. induction len as [ | len IH]; intros a l; cbn [seq foldl]; [reflexivity | ].
  rewrite IH. apply length_insert.
Qed.

Lemma cleared_lookup (l : list Sh2_t) (a len i : nat) :
  (a <= i < a + len)%nat -> (i < length l)%nat ->
  foldl (fun l i => <[i := sh2_zero]> l) l (seq a len) !! i = Some sh2_zero.
Proof.
  revert a l. induction len as [ | len IH]; intros a l Hi Hl; [lia | ].
  cbn [seq foldl].
  destruct (Nat.eq_dec i a) as [-> | Hne].
  - clear IH Hi. revert l Hl. generalize (S a) at 1. intros b.
    assert (Hkeep : forall (n : nat) (k : list Sh2_t) (b : nat),
              k !! a = Some sh2_zero ->
              foldl (fun l i => <[i := sh2_zero]> l) k (seq b n) !! a = Some sh2_zero).
    { induction n as [ | n IHn]; intros k b0 Hk; cbn [seq foldl]; [exact Hk | ].
      apply IHn. destruct (Nat.eq_dec b0 a) as [-> | Hd].
      - apply list_lookup_insert_eq. eapply lookup_lt_Some. exact Hk.
      - rewrite list_lookup_insert_ne by exact Hd. exact Hk. }
    intros l Hl. apply Hkeep. apply list_lookup_insert_eq. exact Hl.
  - apply IH; [lia | rewrite length_insert; exact Hl].
Qed.

End Init.

(** X4.  With one unit configured, sh2_hal_init returns from any state of
    the globals.  It drives unit 0's reset line low and its boot line
    high, in that order, and leaves: the mutex free, the completion
    semaphore empty, the event queue empty, the peripheral marked for
    re-initialisation, and unit 0 cleared (no callback, address 0,
    nothing owed, an all-zero buffer of SH2_HAL_MAX_TRANSFER bytes, an
    empty gate) with its two control lines attached. *)
Theorem init_with_one_unit `{P : Platform} (s : Hal) :
  SH2_UNITS = 1%N ->
  units_allocated s ->
  sh2_hal_init s
  = Done [GpioWritePin RSTN_PIN false; GpioWritePin BOOTN_PIN true] tt
      {| i2cMutex := false; i2cBlockSem := false; i2cStatus := i2cStatus s;
         i2cResetNeeded := true; evtQueue := []; sh2 := [unit0_wired] |}.
Proof.
  intros H1 Hwf. unfold units_allocated in Hwf. rewrite H1 in Hwf.
  destruct s as [mx bs st rn q us]. cbn [sh2] in Hwf.
  destruct us as [ | u [ | u' us]]; try discriminate Hwf.
  unfold sh2_hal_init, all_units. rewrite H1. reflexivity.
Qed.

(** From the start-up state. *)
Lemma init_with_one_unit_witness :
  @sh2_hal_init nucleo (@boot nucleo)
  = Done [GpioWritePin RSTN_PIN false; GpioWritePin BOOTN_PIN true] tt
      {| i2cMutex := false; i2cBlockSem := false; i2cStatus := 0;
         i2cResetNeeded := true; evtQueue := []; sh2 := [@unit0_wired nucleo] |}.
Proof.
  apply (@init_with_one_unit nucleo (@boot nucleo)); reflexivity.
Defined.

(** X5.  With two or more units configured, sh2_hal_init does not return:
    only unit 0 is given control lines, so after driving unit 0's lines
    the second loop calls through the null rstn pointer of unit 1. *)
Theorem init_with_more_units_faults `{P : Platform} (s : Hal) :
  (2 <= SH2_UNITS)%N ->
  units_allocated s ->
  exists s',
    sh2_hal_init s
    = Stuck Fault [GpioWritePin RSTN_PIN false; GpioWritePin BOOTN_PIN true] s'
    /\ sh2 s' !! 0%nat = Some unit0_wired
    /\ sh2 s' !! 1%nat = Some sh2_zero.
Proof.
  intros H2 Hwf. unfold units_allocated in Hwf.
  assert (Hseq : all_units SH2_UNITS
                 = 0%N :: 1%N :: map N.of_nat (seq 2 (N.to_nat SH2_UNITS - 2))).
  { unfold all_units. destruct (N.to_nat SH2_UNITS) as [ | [ | n]] eqn:Hn; try lia.
    cbn [seq map]. replace (S (S n) - 2)%nat with n by lia. reflexivity. }
  unfold sh2_hal_init.
  rewrite (bind_Done_nil _ _ _ _ _ (eq_refl : modify (set_i2cResetNeeded true) s = _)).
  set (s0 := set_i2cResetNeeded true s).
  assert (Hloop := for_units_clear (N.to_nat SH2_UNITS) 0 s0).
  fold (all_units SH2_UNITS) in Hloop.
  rewrite (bind_Done_nil _ _ _ _ _ (Hloop ltac:(cbn; lia))).
  set (l1 := foldl (fun l i => <[i := sh2_zero]> l) (sh2 s0) (seq 0 (N.to_nat SH2_UNITS))).
  assert (Hlen1 : length l1 = N.to_nat SH2_UNITS)
    by (unfold l1; rewrite cleared_length; exact Hwf).
  assert (H0 : l1 !! 0%nat = Some sh2_zero)
    by (apply cleared_lookup; cbn; lia).
  assert (H1 : l1 !! 1%nat = Some sh2_zero)
    by (apply cleared_lookup; cbn; lia).
  set (s1 := set_sh2 l1 s0).
  assert (Hl0 : sh2 s1 !! N.to_nat 0 = Some sh2_zero) by exact H0.
  rewrite (bind_Done_nil _ _ _ _ _ (sh2_set_run _ _ _ _ Hl0)).
  pose proof (sh2_lookup_set 0%N _ (set_rstn (Some rstn0) sh2_zero) _ Hl0) as Hl0'.
  rewrite (bind_Done_nil _ _ _ _ _ (sh2_set_run _ _ _ _ Hl0')).
  pose proof (sh2_lookup_set 0%N _ (set_bootn (Some bootn0) (set_rstn (Some rstn0) sh2_zero))
                _ Hl0') as Hl0''.
  match type of Hl0'' with sh2 ?st !! _ = _ => set (s3 := st) in * end.
  assert (Hl1 : sh2 s3 !! N.to_nat 1 = Some sh2_zero).
  { unfold s3. cbn [sh2 set_sh2]. change (N.to_nat 0) with 0%nat.
    change (N.to_nat 1) with 1%nat.
    rewrite !list_lookup_insert_ne by lia. exact H1. }
  exists s3. split; [ | split; [exact Hl0'' | exact Hl1]].
  rewrite Hseq. cbn [for_units].
  assert (Hb0 : (u <- sh2_get 0%N ;; call_ptr (rstn u) false ;;
                 u0 <- sh2_get 0%N ;; call_ptr (bootn u0) true) s3
                = Done [GpioWritePin RSTN_PIN false; GpioWritePin BOOTN_PIN true] tt s3).
  { rewrite (bind_Done_nil _ _ _ _ _ (sh2_get_run _ _ _ Hl0'')).
    cbn [rstn set_rstn set_bootn call_ptr call_GpioFn]. unfold HAL_GPIO_WritePin.
    rewrite (bind_Done _ _ _ _ _ _ (eq_refl : emit (GpioWritePin RSTN_PIN false) s3 = _)).
    rewrite (bind_Done_nil _ _ _ _ _ (sh2_get_run _ _ _ Hl0'')).
    reflexivity. }
  assert (Hb1 : (u <- sh2_get 1%N ;; call_ptr (rstn u) false ;;
                 u0 <- sh2_get 1%N ;; call_ptr (bootn u0) true) s3
                = Stuck Fault [] s3).
  { rewrite (bind_Done_nil _ _ _ _ _ (sh2_get_run _ _ _ Hl1)). reflexivity. }
  unfold bind at 1. unfold bind at 1. rewrite Hb0.
  unfold bind at 1. rewrite Hb1. reflexivity.
Qed.

(** Two units. *)
Lemma init_with_more_units_faults_witness :
  exists s',
    @sh2_hal_init two_units (@boot two_units)
    = Stuck Fault [GpioWritePin RSTN_PIN false; GpioWritePin BOOTN_PIN true] s'.
Proof.
  destruct (@init_with_more_units_faults two_units (@boot two_units))
    as (s' & H & _).
  - vm_compute. congruence.
  - reflexivity.
  - exists s'. exact H.
Defined.

(** ** Reset *)

(** X6.  A reset of a valid unit whose control lines are attached, called
    with the mutex free, returns SH2_OK after this exact sequence: take
    the mutex, reset line low, boot line low for DFU mode and high
    otherwise, wait RESET_DELAY (10), reset line high, wait a further
    DFU_BOOT_DELAY (200) in DFU mode only, give the mutex.  In the state
    it changes the unit's callback, cookie and address and sets
    i2cResetNeeded, and nothing else: what the unit still owed
    (rxRemaining) and its receive buffer survive the reset, and so do the
    other units, the gate and the event queue. *)
Theorem reset_effect `{P : Platform}
    (unit : N) (dfuMode : bool) (onRx cookie : Z) (s : Hal) (u : Sh2_t) :
  (unit < SH2_UNITS)%N ->
  sh2 s !! N.to_nat unit = Some u ->
  rstn u = Some rstn0 ->
  bootn u = Some bootn0 ->
  i2cMutex s = false ->
  sh2_hal_reset unit dfuMode onRx cookie s
  = Done ([MutexTake; GpioWritePin RSTN_PIN false; GpioWritePin BOOTN_PIN (negb dfuMode);
           TaskDelay RESET_DELAY; GpioWritePin RSTN_PIN true]
          ++ (if dfuMode then [TaskDelay DFU_BOOT_DELAY] else [])
          ++ [MutexGive])
         SH2_OK
         (set_i2cResetNeeded true
            (set_sh2 (<[N.to_nat unit :=
                          set_addr (unit_addr unit dfuMode)
                            (set_onRx onRx (set_onRxCookie cookie u))]> (sh2 s)) s)).
Proof.
  intros Hu Hl Hr Hb Hm.
  exact (sh2_hal_reset_run unit dfuMode onRx cookie s u Hu Hl Hr Hb Hm).
Qed.

(** Unit 0 after initialisation, into DFU mode. *)
Lemma reset_effect_witness :
  res_trace (@sh2_hal_reset nucleo 0%N true 0x2000 7
               (res_state (@sh2_hal_init nucleo (@boot nucleo))))
  = [MutexTake; GpioWritePin RSTN_PIN false; GpioWritePin BOOTN_PIN false;
     TaskDelay 10; GpioWritePin RSTN_PIN true; TaskDelay 200; MutexGive].
Proof.
  rewrite (@reset_effect nucleo 0%N true 0x2000 7
             (res_state (@sh2_hal_init nucleo (@boot nucleo))) (@unit0_wired nucleo));
    reflexivity.
Defined.

(** ** The blocking gate *)

Section Gate.
Context `{P : Platform}.

Lemma sh2_hal_unblock_run (unit : N) (s : Hal) (u : Sh2_t) :
  (unit < SH2_UNITS)%N ->
  sh2 s !! N.to_nat unit = Some u ->
  sh2_hal_unblock unit s
  = Done [] SH2_OK (set_sh2 (<[N.to_nat unit := set_blockSem true u]> (sh2 s)) s).
Proof.
  intros Hu Hl. unfold sh2_hal_unblock.
  rewrite (proj2 (N.leb_gt SH2_UNITS unit)) by exact Hu.
  rewrite (bind_Done_nil _ _ _ _ _ (sh2_set_run _ _ _ _ Hl)). reflexivity.
Qed.

Lemma sh2_hal_block_run (unit : N) (s : Hal) (u : Sh2_t) :
  (unit < SH2_UNITS)%N ->
  sh2 s !! N.to_nat unit = Some u ->
  sh2_hal_block unit s
  = if blockSem u
    then Done [] SH2_OK (set_sh2 (<[N.to_nat unit := set_blockSem false u]> (sh2 s)) s)
    else Stuck Blocked [] s.
Proof.
  intros Hu Hl. unfold sh2_hal_block.
  rewrite (proj2 (N.leb_gt SH2_UNITS unit)) by exact Hu.
  rewrite (bind_Done_nil _ _ _ _ _ (sh2_get_run _ _ _ Hl)).
  destruct (blockSem u).
  - rewrite (bind_Done_nil _ _ _ _ _ (sh2_set_run _ _ _ _ Hl)). reflexivity.
  - reflexivity.
Qed.

Lemma unblocks_run (k : nat) (unit : N) (s : Hal) (u : Sh2_t) :
  (unit < SH2_UNITS)%N ->
  sh2 s !! N.to_nat unit = Some u ->
  run_calls (replicate (S k) (CallUnblock unit)) s
  = Done [] tt (set_sh2 (<[N.to_nat unit := set_blockSem true u]> (sh2 s)) s).
Proof.
  intros Hu. revert s u. induction k as [ | k IH]; intros s u Hl.
  - cbn [replicate run_calls run_call].
    rewrite (bind_Done_nil _ _ _ _ _
               (bind_Done_nil _ (fun _ => ret tt) _ _ _ (sh2_hal_unblock_run _ _ _ Hu Hl))).
    reflexivity.
  - change (replicate (S (S k)) (CallUnblock unit))
      with (CallUnblock unit :: replicate (S k) (CallUnblock unit)).
    cbn [run_calls run_call].
    rewrite (bind_Done_nil _ _ _ _ _
               (bind_Done_nil _ (fun _ => ret tt) _ _ _ (sh2_hal_unblock_run _ _ _ Hu Hl))).
    rewrite (IH _ (set_blockSem true u)) by (apply sh2_lookup_set with (u := u); exact Hl).
    cbn [sh2 set_sh2]. rewrite list_insert_insert_eq. reflexivity.
Qed.

End Gate.

(** X8.  The gate of a unit holds at most one token.  For a valid unit,
    any number (one or more) of sh2_hal_unblock calls followed by one
    sh2_hal_block all return, without a call to the bus, the mutex or a
    pin, and leave the gate empty and everything else as it was; a second
    sh2_hal_block then waits, however many times the gate was opened. *)
Theorem gate_holds_one_token `{P : Platform} (k : nat) (unit : N) (s : Hal) (u : Sh2_t) :
  (unit < SH2_UNITS)%N ->
  sh2 s !! N.to_nat unit = Some u ->
  let s' := set_sh2 (<[N.to_nat unit := set_blockSem false u]> (sh2 s)) s in
  run_calls (replicate (S k) (CallUnblock unit) ++ [CallBlock unit]) s = Done [] tt s'
  /\ sh2_hal_block unit s' = Stuck Blocked [] s'.
Proof.
  intros Hu Hl s'.
  assert (Hl1 : sh2 (set_sh2 (<[N.to_nat unit := set_blockSem true u]> (sh2 s)) s)
                !! N.to_nat unit = Some (set_blockSem true u))
    by (apply sh2_lookup_set with (u := u); exact Hl).
  assert (Hl2 : sh2 s' !! N.to_nat unit = Some (set_blockSem false u))
    by (apply sh2_lookup_set with (u := u); exact Hl).
  split.
  - assert (Happ : forall cs1 cs2 s0 s1,
              run_calls cs1 s0 = Done [] tt s1 ->
              run_calls (cs1 ++ cs2) s0 = run_calls cs2 s1).
    { induction cs1 as [ | c cs1 IH]; intros cs2 s0 s1 H; cbn [app run_calls] in *.
      - unfold ret in H. injection H as <-. reflexivity.
      - apply bind_Done_inv in H as (tr1 & [] & sm & tr2 & H1 & H2 & Htr).
        symmetry in Htr. apply app_eq_nil in Htr as [-> ->].
        rewrite (bind_Done_nil _ _ _ _ _ H1). apply IH. exact H2. }
    rewrite (Happ _ _ _ _ (unblocks_run k unit s u Hu Hl)).
    cbn [run_calls run_call]. unfold bind.
    rewrite (sh2_hal_block_run _ _ _ Hu Hl1).
    cbn [blockSem set_blockSem ret app sh2 set_sh2].
    rewrite list_insert_insert_eq. reflexivity.
  - rewrite (sh2_hal_block_run _ _ _ Hu Hl2). reflexivity.
Qed.

(** Three unblocks, then two blocks, on unit 0. *)
Lemma gate_holds_one_token_witness :
  returns (@run_calls nucleo (replicate 3 (CallUnblock 0%N) ++ [CallBlock 0%N]) ready)
  /\ ~ returns (@run_calls nucleo
                  (replicate 3 (CallUnblock 0%N) ++ [CallBlock 0%N; CallBlock 0%N]) ready).
Proof.
  destruct (@gate_holds_one_token nucleo 2 0%N ready ready_unit) as [H1 H2].
  - reflexivity.
  - reflexivity.
  - split.
    + rewrite H1. exact I.
    + vm_compute. intros [].
Defined.

(** ** The worker task and the receive buffer *)

Section Worker_read.
Context `{P : Platform}.

Lemma store_rx_length (data : list byte) (len : Z) (pData : list byte) :
  length (store_rx data len pData) = length pData.
Proof.
  unfold store_rx. rewrite length_take, length_app, length_drop. lia.
Qed.

Lemma i2cBlockingRx_outcome (addr len : Z) (pData : list byte) (r : BusReply) (s : Hal) :
  Forall (fun x => x = MutexTake \/ x = MutexGive \/ x = I2cDeInit \/ x = I2cInit
                   \/ x = I2cReceiveIT addr len)
         (res_trace (i2cBlockingRx addr pData len r s))
  /\ forall tr st b s', i2cBlockingRx addr pData len r s = Done tr (st, b) s' ->
       length b = length pData.
Proof.
  destruct s as [mx bs st rn q us].
  destruct r as [c i d]; unfold_hal; cbn.
  destruct mx, (c =? 0), rn, i as [[] | ], bs; cbn;
    (split; [repeat constructor; tauto | ]);
    intros ? ? ? ? H; first [discriminate | injection H as _ _ <- _];
    first [reflexivity | apply store_rx_length].
Qed.

(** The loop body for an interrupt event of a unit with a callback, in
    terms of what the read does. *)
Lemma halTask_event_read (event : Event_t) (r : BusReply) (s : Hal) (u : Sh2_t) :
  (unit event < SH2_UNITS)%N ->
  sh2 s !! N.to_nat (unit event) = Some u ->
  id event = EVT_INTN ->
  onRx u <> 0 ->
  let readLen := readLen_of (rxRemaining u) in
  halTask_event event r s
  = match i2cBlockingRx (addr u) (rxBuf u) readLen r s with
    | Done tr res s1 =>
        Done (tr ++ [OnRx (unit event) (onRx u) (onRxCookie u) (snd res) readLen
                          (wrap32 (t_ms event * 1000))])
             tt
             (set_sh2 (<[N.to_nat (unit event) :=
                           set_rxRemaining (rxRemaining_of (cargoLen_of (snd res)) readLen)
                             (set_rxBuf (snd res) u)]> (sh2 s1)) s1)
    | Stuck w tr s1 => Stuck w tr s1
    end.
Proof.
  intros Hu Hl Hid Hcb readLen.
  unfold halTask_event.
  rewrite (proj2 (N.leb_gt SH2_UNITS (unit event))) by exact Hu.
  rewrite (bind_Done_nil _ _ _ _ _ (sh2_get_run _ _ _ Hl)).
  rewrite Hid, Z.eqb_refl, (proj2 (Z.eqb_neq (onRx u) 0)) by exact Hcb.
  cbn [negb]. fold readLen.
  destruct (i2cBlockingRx_frame (addr u) readLen (rxBuf u) r s) as (Hsh & _).
  destruct (i2cBlockingRx (addr u) (rxBuf u) readLen r s) as [tr res s1 | w tr s1] eqn:HX;
    cbn [res_state] in Hsh.
  - rewrite (bind_Done _ _ _ _ _ _ HX).
    assert (Hl1 : sh2 s1 !! N.to_nat (unit event) = Some u) by (rewrite Hsh; exact Hl).
    rewrite (bind_Done_nil _ _ _ _ _ (sh2_set_run _ _ _ _ Hl1)).
    pose proof (sh2_lookup_set _ _ (set_rxBuf (snd res) u) _ Hl1) as Hl2.
    rewrite (bind_Done_nil _ _ _ _ _ (sh2_get_run _ _ _ Hl2)).
    rewrite (bind_Done_nil _ _ _ _ _ (sh2_set_run _ _ _ _ Hl2)).
    pose proof (sh2_lookup_set _ _
      (set_rxRemaining (rxRemaining_of (cargoLen_of (rxBuf (set_rxBuf (snd res) u))) readLen)
         (set_rxBuf (snd res) u)) _ Hl2) as Hl3.
    rewrite (bind_Done_nil _ _ _ _ _ (sh2_get_run _ _ _ Hl3)).
    unfold emit. cbn [rxBuf set_rxBuf set_rxRemaining onRx onRxCookie sh2 set_sh2].
    rewrite list_insert_insert_eq. reflexivity.
  - unfold bind. rewrite HX. reflexivity.
Qed.

Lemma readLen_of_fits (rxRemaining : Z) :
  SHTP_HEADER_LEN <= SH2_HAL_MAX_TRANSFER ->
  SHTP_HEADER_LEN <= readLen_of rxRemaining <= SH2_HAL_MAX_TRANSFER.
Proof. intros H. rewrite readLen_of_min_max. lia. Qed.

Lemma fits_safe_halTask_event (event : Event_t) (r : BusReply) :
  SHTP_HEADER_LEN <= SH2_HAL_MAX_TRANSFER ->
  safe buffers_sized read_fits (halTask_event event r).
Proof.
  intros Hmax s Hs.
  destruct (N.leb_spec SH2_UNITS (unit event)) as [Hbad | Hok].
  { unfold halTask_event. rewrite (proj2 (N.leb_le _ _) Hbad).
    split; [exact Hs | constructor]. }
  destruct (sh2 s !! N.to_nat (unit event)) as [u | ] eqn:Hl.
  2: { unfold halTask_event, bind, sh2_get.
       rewrite (proj2 (N.leb_gt _ _) Hok), Hl. split; [exact Hs | constructor]. }
  destruct (Z.eqb_spec (id event) EVT_INTN) as [Hid | Hid].
  2: { unfold halTask_event.
       rewrite (proj2 (N.leb_gt _ _) Hok), (bind_Done_nil _ _ _ _ _ (sh2_get_run _ _ _ Hl)).
       rewrite (proj2 (Z.eqb_neq _ _) Hid). split; [exact Hs | constructor]. }
  destruct (Z.eqb_spec (onRx u) 0) as [Hcb | Hcb].
  { unfold halTask_event.
    rewrite (proj2 (N.leb_gt _ _) Hok), (bind_Done_nil _ _ _ _ _ (sh2_get_run _ _ _ Hl)).
    rewrite Hid, Z.eqb_refl, Hcb. split; [exact Hs | constructor]. }
  rewrite (halTask_event_read event r s u Hok Hl Hid Hcb).
  pose proof (readLen_of_fits (rxRemaining u) Hmax) as HL.
  destruct (i2cBlockingRx_frame (addr u) (readLen_of (rxRemaining u)) (rxBuf u) r s)
    as (Hsh & _).
  destruct (i2cBlockingRx_outcome (addr u) (readLen_of (rxRemaining u)) (rxBuf u) r s)
    as (Htr & Hlen).
  assert (Hbuf : length (rxBuf u) = Z.to_nat SH2_HAL_MAX_TRANSFER).
  { unfold buffers_sized in Hs. rewrite Forall_forall in Hs. apply Hs.
    eapply list_elem_of_lookup_2. exact Hl. }
  assert (Htr' : Forall read_fits
                   (res_trace (i2cBlockingRx (addr u) (rxBuf u)
                                 (readLen_of (rxRemaining u)) r s))).
  { eapply Forall_impl; [exact Htr | ].
    intros x [-> | [-> | [-> | [-> | ->]]]]; cbn; auto. }
  destruct (i2cBlockingRx (addr u) (rxBuf u) (readLen_of (rxRemaining u)) r s)
    as [tr [st b] s1 | w tr s1]; cbn [res_state res_trace snd] in *.
  - specialize (Hlen _ _ _ _ eq_refl).
    split.
    + unfold buffers_sized in *. cbn [sh2 set_sh2]. rewrite Hsh.
      apply Forall_insert; [exact Hs | ]. cbn [rxBuf set_rxBuf set_rxRemaining]. congruence.
    + apply Forall_app. split; [exact Htr' | ].
      repeat constructor; [congruence | apply HL | apply HL].
  - split; [ | exact Htr']. unfold buffers_sized in *. rewrite Hsh. exact Hs.
Qed.

Lemma fits_safe_halTask (rs : list BusReply) :
  SHTP_HEADER_LEN <= SH2_HAL_MAX_TRANSFER ->
  safe buffers_sized read_fits (halTask rs).
Proof.
  intros Hmax. induction rs as [ | r rs IH]; cbn [halTask].
  - apply safe_ret.
  - apply safe_bind; [ | intros _; exact IH].
    unfold halTask_iter. apply safe_bind.
    + intros s Hs. destruct (xQueueReceive_frame s) as (Hsh & _ & Htr).
      rewrite Htr. split; [ | constructor].
      unfold buffers_sized in *. rewrite Hsh. exact Hs.
    + intros e. apply fits_safe_halTask_event. exact Hmax.
Qed.

End Worker_read.

(** X9.  The worker task never overruns a receive buffer.  When the
    transfer size is at least the header length and every unit's buffer
    has its SH2_HAL_MAX_TRANSFER bytes, then over any number of turns of
    the loop, whatever events are queued and whatever the bus replies
    (and whatever the units owe), every read the task requests and every
    length it passes to a callback lies between 4 and
    SH2_HAL_MAX_TRANSFER, the buffer handed to the callback has
    SH2_HAL_MAX_TRANSFER bytes, and the buffers keep their size. *)
Theorem worker_reads_fit_the_buffer `{P : Platform} (rs : list BusReply) (s : Hal) :
  SHTP_HEADER_LEN <= SH2_HAL_MAX_TRANSFER ->
  buffers_sized s ->
  Forall read_fits (res_trace (halTask rs s))
  /\ buffers_sized (res_state (halTask rs s)).
Proof.
  intros Hmax Hs. destruct (fits_safe_halTask rs Hmax s Hs) as [H1 H2].
  split; assumption.
Qed.

(** Two interrupts served after a reset: a header that announces 20
    bytes, then a refused request. *)
Lemma worker_reads_fit_the_buffer_witness :
  Forall (@read_fits nucleo)
    (res_trace (@halTask nucleo [header20; refused]
                  (set_evtQueue [intn_event; intn_event] ready))).
Proof.
  apply (@worker_reads_fit_the_buffer nucleo [header20; refused]
           (set_evtQueue [intn_event; intn_event] ready)).
  - vm_compute. congruence.
  - repeat constructor.
Defined.

(** ** What a transfer leaves alone, and a transfer that never ends *)

(** X10.  sh2_hal_tx and sh2_hal_rx never write to the unit table or to
    the event queue: callbacks, cookies, addresses, owed lengths, receive
    buffers and gates of all units are the same after the call, for every
    unit index, length, state and bus reply, also when the call does not
    come back. *)
Theorem tx_rx_leave_units_alone `{P : Platform}
    (unit : N) (pData : list byte) (len : Z) (r : BusReply) (s : Hal) :
  sh2 (res_state (sh2_hal_tx unit pData len r s)) = sh2 s
  /\ evtQueue (res_state (sh2_hal_tx unit pData len r s)) = evtQueue s
  /\ sh2 (res_state (sh2_hal_rx unit pData len r s)) = sh2 s
  /\ evtQueue (res_state (sh2_hal_rx unit pData len r s)) = evtQueue s.
Proof.
  unfold sh2_hal_tx, sh2_hal_rx.
  destruct (SH2_UNITS <=? unit)%N; [repeat split | ].
  destruct (len =? 0); [repeat split | ].
  unfold bind, sh2_get.
  destruct (sh2 s !! N.to_nat unit) as [u | ]; [ | repeat split].
  destruct (i2cBlockingTx_frame (addr u) len pData r s) as (Ht1 & Ht2 & _).
  destruct (i2cBlockingRx_frame (addr u) len pData r s) as (Hr1 & Hr2 & _).
  destruct (i2cBlockingTx (addr u) pData len r s);
    destruct (i2cBlockingRx (addr u) pData len r s); cbn [res_state] in *; auto.
Qed.

(** X11.  There is no time-out.  When a transfer is accepted by the driver
    (return value 0) and no completion or error interrupt ever arrives,
    i2cBlockingRx and i2cBlockingTx do not return: their last act is the
    transfer request, and they stay suspended with the bus mutex held.
    With the mutex held, a reset of a valid unit and any further bus
    transaction are suspended before they do anything. *)
Theorem lost_interrupt_wedges_the_bus `{P : Platform}
    (addr len : Z) (pData : list byte) (r : BusReply) (s : Hal) :
  i2cMutex s = false ->
  i2cBlockSem s = false ->
  rc r = 0 ->
  irq r = None ->
  (exists trR sR trT sT,
     i2cBlockingRx addr pData len r s = Stuck Blocked trR sR
     /\ last trR = Some (I2cReceiveIT addr len) /\ i2cMutex sR = true
     /\ i2cBlockingTx addr pData len r s = Stuck Blocked trT sT
     /\ last trT = Some (I2cTransmitIT addr pData len) /\ i2cMutex sT = true)
  /\ forall s', i2cMutex s' = true ->
       (forall addr2 len2 pData2 r2,
          i2cBlockingRx addr2 pData2 len2 r2 s' = Stuck Blocked [] s'
          /\ i2cBlockingTx addr2 pData2 len2 r2 s' = Stuck Blocked [] s')
       /\ forall unit dfuMode onRx cookie,
            (unit < SH2_UNITS)%N ->
            sh2_hal_reset unit dfuMode onRx cookie s' = Stuck Blocked [] s'.
Proof.
  intros Hm Hb Hrc Hirq. split.
  - destruct s as [mx bs st rn q us]. cbn in Hm, Hb. subst mx bs.
    destruct r as [c i d]. cbn in Hrc, Hirq. subst c i.
    unfold_hal; cbn. destruct rn; cbn; eexists _, _, _, _; repeat split.
  - intros s' Hm'. split.
    + intros addr2 len2 pData2 r2.
      unfold i2cBlockingRx, i2cBlockingTx, bind, xSemaphoreTake_i2cMutex.
      rewrite Hm'. split; reflexivity.
    + intros unit dfuMode onRx cookie Hu. unfold sh2_hal_reset.
      rewrite (proj2 (N.leb_gt SH2_UNITS unit)) by exact Hu.
      unfold bind, xSemaphoreTake_i2cMutex. rewrite Hm'. reflexivity.
Qed.

(** A write after a reset, with the interrupt lost. *)
Lemma lost_interrupt_wedges_the_bus_witness :
  exists tr s',
    @sh2_hal_tx nucleo 0%N [x01] 1 {| rc := 0; irq := None; rxData := [] |} ready
    = Stuck Blocked tr s'
    /\ i2cMutex s' = true.
Proof.
  destruct (@lost_interrupt_wedges_the_bus nucleo 0x94 1 [x01]
              {| rc := 0; irq := None; rxData := [] |} ready)
    as ((trR & sR & trT & sT & _ & _ & _ & HT & _ & HmT) & _);
    try reflexivity.
  exists trT, sT. split; [exact HT | exact HmT].
Defined.

(** ** From the interrupt to the callback *)

Section Delivery.
Context `{P : Platform}.

Lemma wrap32_us (t : Z) :
  0 <= t ->
  (t <= 4294967 -> wrap32 (t * 1000) = t * 1000)
  /\ (4294967 < t -> wrap32 (t * 1000) < t * 1000).
Proof.
  intros Ht. unfold wrap32. change (2 ^ 32) with 4294967296. split; intros H.
  - apply Z.mod_small. lia.
  - pose proof (Z.mod_pos_bound (t * 1000) 4294967296 eq_refl). lia.
Qed.

End Delivery.

(** X12.  Register, interrupt, deliver.  Take unit 0 with its control
    lines attached, the mutex free and the event queue empty.  After a
    reset that registers the callback onRx with its cookie, a sensor
    interrupt at tick [tick] followed by one turn of the worker task
    (with a bus reply that lets the read come back) does this: if onRx is
    null the event is dropped without any call; otherwise the task
    re-initialises the peripheral, reads at the address of the requested
    mode as many bytes as the unit owed before the reset (at least 4, at
    most SH2_HAL_MAX_TRANSFER: the reset does not clear what was owed),
    and calls onRx with the cookie, the buffer, that length and the
    time stamp tick * 1000 modulo 2^32. *)
Theorem interrupt_after_reset_is_delivered `{P : Platform}
    (dfuMode : bool) (onRx cookie n tick : Z) (r : BusReply) (s : Hal) (u : Sh2_t) :
  (0 < SH2_UNITS)%N ->
  sh2 s !! 0%nat = Some u ->
  rstn u = Some rstn0 ->
  bootn u = Some bootn0 ->
  i2cMutex s = false ->
  evtQueue s = [] ->
  answers r ->
  let L := readLen_of (rxRemaining u) in
  let buf := if rc r =? 0 then store_rx (rxData r) L (rxBuf u) else rxBuf u in
  exists tr1 s1 s2,
    sh2_hal_reset 0%N dfuMode onRx cookie s = Done tr1 SH2_OK s1
    /\ run_calls [Exti n tick; Worker r] s1
       = Done (if onRx =? 0 then []
               else [MutexTake; I2cDeInit; I2cInit;
                     I2cReceiveIT (unit_addr 0%N dfuMode) L; MutexGive;
                     OnRx 0%N onRx cookie buf L (wrap32 (tick * 1000))])
              tt s2.
Proof.
  intros Hu Hl Hr Hb Hm Hq Ha L buf.
  pose proof (sh2_hal_reset_run 0%N dfuMode onRx cookie s u Hu Hl Hr Hb Hm) as Hreset.
  set (u1 := set_addr (unit_addr 0%N dfuMode) (set_onRx onRx (set_onRxCookie cookie u)))
    in *.
  set (s1 := set_i2cResetNeeded true (set_sh2 (<[N.to_nat 0 := u1]> (sh2 s)) s)) in *.
  assert (Hq1 : evtQueue s1 = []) by exact Hq.
  set (s1' := set_evtQueue [intn_at tick] s1).
  assert (Hl1 : sh2 s1 !! N.to_nat (unit (intn_at tick)) = Some u1).
  { unfold s1. cbn [sh2 set_sh2 set_i2cResetNeeded unit intn_at].
    apply list_lookup_insert_eq. eapply lookup_lt_Some. exact Hl. }
  assert (Hs1 : set_evtQueue [] s1' = s1).
  { unfold s1'. rewrite set_evtQueue_twice. rewrite <- Hq1. apply set_evtQueue_same. }
  assert (Hrecv : xQueueReceive s1' = Done [] (intn_at tick) s1).
  { unfold xQueueReceive. cbn [evtQueue s1' set_evtQueue]. rewrite Hs1. reflexivity. }
  assert (Hcalls : run_calls [Exti n tick; Worker r] s1
                   = bind (halTask_event (intn_at tick) r) (fun _ => ret tt) s1).
  { cbn [run_calls run_call].
    rewrite (bind_Done_nil _ _ _ _ _ (exti_run n tick s1)).
    rewrite Hq1. change (Z.of_nat (length []) <? MAX_EVENTS) with true. cbn [app].
    fold s1'. unfold halTask_iter. unfold bind at 1.
    rewrite (bind_Done_nil _ (fun event => halTask_event event r) _ _ _ Hrecv).
    reflexivity. }
  destruct (Z.eqb_spec onRx 0) as [Hnull | Hcb].
  - eexists _, s1, s1. split; [exact Hreset | ]. rewrite Hcalls.
    assert (Hign : halTask_event (intn_at tick) r s1 = Done [] tt s1).
    { unfold halTask_event. cbn [unit intn_at].
      rewrite (proj2 (N.leb_gt SH2_UNITS 0%N)) by exact Hu.
      rewrite (bind_Done_nil _ _ _ _ _ (sh2_get_run _ _ _ Hl1)).
      subst u1. cbn. rewrite Hnull. reflexivity. }
    rewrite (bind_Done_nil _ _ _ _ _ Hign). reflexivity.
  - destruct (halTask_event_run (intn_at tick) r s1 u1 Hu Hl1 eq_refl Hcb Hm Ha)
      as (s2 & Hrun & _).
    eexists _, s1, s2. split; [exact Hreset | ]. rewrite Hcalls.
    rewrite (bind_Done _ _ _ _ _ _ Hrun). unfold ret. rewrite app_nil_r. reflexivity.
Qed.

(** After initialisation: a reset into normal mode, an interrupt at tick
    5 and a completed 4-byte read. *)
Lemma interrupt_after_reset_is_delivered_witness :
  exists tr1 s1 s2,
    @sh2_hal_reset nucleo 0%N false 0x2000 7
       (res_state (@sh2_hal_init nucleo (@boot nucleo))) = Done tr1 0 s1
    /\ exists buf,
         @run_calls nucleo [Exti 13 5; Worker header20] s1
         = Done [MutexTake; I2cDeInit; I2cInit; I2cReceiveIT 0x94 4; MutexGive;
                 OnRx 0%N 0x2000 7 buf 4 5000] tt s2.
Proof.
  destruct (@interrupt_after_reset_is_delivered nucleo false 0x2000 7 13 5 header20
              (res_state (@sh2_hal_init nucleo (@boot nucleo))) (@unit0_wired nucleo))
    as (tr1 & s1 & s2 & H1 & H2); try reflexivity.
  - right. cbn. congruence.
  - exists tr1, s1, s2. split; [exact H1 | ]. eexists. exact H2.
Defined.

(** X13.  The time stamp that the worker task passes to the callback is
    the tick of the event in microseconds in 32 bits, t_ms * 1000 modulo
    2^32: it is exact for ticks up to 4294967 ms and has wrapped around,
    to a value below t_ms * 1000, for every later tick. *)
Theorem callback_timestamp_wraps `{P : Platform}
    (event : Event_t) (r : BusReply) (s : Hal) (u : Sh2_t) :
  (unit event < SH2_UNITS)%N ->
  sh2 s !! N.to_nat (unit event) = Some u ->
  id event = EVT_INTN ->
  onRx u <> 0 ->
  i2cMutex s = false ->
  answers r ->
  0 <= t_ms event ->
  exists buf len t_us,
    last (res_trace (halTask_event event r s))
    = Some (OnRx (unit event) (onRx u) (onRxCookie u) buf len t_us)
    /\ t_us = (t_ms event * 1000) mod 2 ^ 32
    /\ (t_ms event <= 4294967 -> t_us = t_ms event * 1000)
    /\ (4294967 < t_ms event -> t_us < t_ms event * 1000).
Proof.
  intros Hu Hl Hid Hcb Hm Ha Ht.
  destruct (halTask_event_run event r s u Hu Hl Hid Hcb Hm Ha) as (s' & Hrun & _).
  rewrite Hrun. cbn [res_trace].
  eexists _, _, _. split.
  - rewrite !app_assoc. apply last_snoc.
  - split; [reflexivity | apply wrap32_us; exact Ht].
Qed.

(** An interrupt at tick 4294968, one millisecond after the last exact
    one: the callback sees 704 microseconds. *)
Lemma callback_timestamp_wraps_witness :
  exists buf len,
    last (res_trace (@halTask_event nucleo
                       {| t_ms := 4294968; id := EVT_INTN; unit := 0%N |} header20 ready))
    = Some (OnRx 0%N 0x2000 7 buf len 704).
Proof.
  destruct (@callback_timestamp_wraps nucleo
              {| t_ms := 4294968; id := EVT_INTN; unit := 0%N |} header20 ready ready_unit)
    as (buf & len & t_us & Hlast & Ht & _); try reflexivity.
  - vm_compute. congruence.
  - right. cbn. congruence.
  - vm_compute. congruence.
  - exists buf, len. rewrite Hlast, Ht. reflexivity.
Defined.

(** * The demo application *)

Lemma land_low_byte (x : Z) : Z.land x 0xFF = x mod 2 ^ 8.
Proof. change 0xFF with (Z.ones 8). apply Z.land_ones. lia. Qed.

(** X14.  The sample counter of printDsf.  For a report with sequence
    number [sequence] (a byte) and a 32-bit counter, the updated counter
    has [sequence] as its low byte; it moves forward by the distance from
    the old low byte to [sequence], between 0 and 255 (modulo 2^32); and
    a report that repeats the sequence number leaves it unchanged. *)
Theorem sample_counter_follows_sequence (sequence lastSequence : Z) :
  0 <= sequence < 2 ^ 8 ->
  0 <= lastSequence < 2 ^ 32 ->
  let next := lastSequence_next sequence lastSequence in
  Z.land next 0xFF = sequence
  /\ 0 <= deltaSeq sequence lastSequence <= 255
  /\ next = (lastSequence + deltaSeq sequence lastSequence) mod 2 ^ 32
  /\ (lastSequence + 255 < 2 ^ 32 -> lastSequence <= next <= lastSequence + 255)
  /\ (Z.land lastSequence 0xFF = sequence -> next = lastSequence).
Proof.
  intros Hs Hl next. unfold next, lastSequence_next, deltaSeq, wrap32.
  rewrite !land_low_byte.
  change (2 ^ 8) with 256 in *. change (2 ^ 32) with 4294967296 in *.
  repeat split.
  - Z.to_euclidean_division_equations. lia.
  - Z.to_euclidean_division_equations. lia.
  - Z.to_euclidean_division_equations. lia.
  - Z.to_euclidean_division_equations. lia.
  - Z.to_euclidean_division_equations. lia.
  - Z.to_euclidean_division_equations. lia.
Qed.

(** The counter 0x1FE sees sequence number 2: four samples further. *)
Lemma sample_counter_follows_sequence_witness :
  lastSequence_next 2 0x1FE = 0x202 /\ deltaSeq 2 0x1FE = 4.
Proof.
  destruct (sample_counter_follows_sequence 2 0x1FE) as (_ & _ & Hnext & _).
  - lia.
  - lia.
  - split; [rewrite Hnext | ]; reflexivity.
Defined.

(** X15.  The application keeps one sensor event.  When the sensor
    callback runs twice before the demo task takes its turn, the turn
    prints the second event only, counts one sensor event, and the task
    then waits: the first event is lost, and the two wake-ups count as
    one.  (If a reset was pending, the same turn then configures the hub
    and starts the reports.) *)
Theorem newest_sensor_event_wins {SensorEvent : Type}
    (e1 e2 : SensorEvent) (a : @App SensorEvent) :
  let a' := {| resetPerformed := false; startedReports := startedReports a;
               sensorReceived := false; sensorEvent := e2;
               wakeSensorTask := false; sensors := wrap32 (sensors a + 1) |} in
  demoTask_turn (sensorHandler e2 (sensorHandler e1 a))
  = Some (PrintEvent e2
            :: (if resetPerformed a then [ConfigureForDefault; StartReports] else []),
          a')
  /\ demoTask_turn a' = None.
Proof.
  intros a'. split; reflexivity.
Qed.

(** X16.  A reset event reconfigures the hub once.  eventHandler ignores
    every event other than SH2_RESET (no print, no wake-up, no change).
    On SH2_RESET it prints, marks the reset and wakes the demo task,
    whose next turn prints a pending sensor event first, if there is one,
    then configures the hub and starts the reports; both marks are then
    cleared and the turn after that waits for a new wake-up. *)
Theorem reset_event_reconfigures_once {SensorEvent : Type}
    (SH2_RESET eventId : Z) (a : @App SensorEvent) :
  (eventId <> SH2_RESET -> eventHandler SH2_RESET eventId a = ([], a))
  /\ exists a1 a2,
       eventHandler SH2_RESET SH2_RESET a = ([PrintReset], a1)
       /\ demoTask_turn a1
          = Some ((if sensorReceived a then [PrintEvent (sensorEvent a)] else [])
                  ++ [ConfigureForDefault; StartReports], a2)
       /\ resetPerformed a2 = false /\ sensorReceived a2 = false
       /\ demoTask_turn a2 = None.
Proof.
  split.
  - intros Hne. unfold eventHandler.
    rewrite (proj2 (Z.eqb_neq eventId SH2_RESET)) by exact Hne. reflexivity.
  - unfold eventHandler. rewrite Z.eqb_refl.
    eexists _, _. split; [reflexivity | ]. split; [reflexivity | ].
    repeat split.
Qed.

(** Other event code, sensor events as numbers. *)
Lemma reset_event_reconfigures_once_witness :
  @eventHandler Z 1 2 (sensorHandler 42 {| resetPerformed := false; startedReports := false;
                                           sensorReceived := false; sensorEvent := 0;
                                           wakeSensorTask := false; sensors := 0 |})
  = ([], sensorHandler 42 {| resetPerformed := false; startedReports := false;
                             sensorReceived := false; sensorEvent := 0;
                             wakeSensorTask := false; sensors := 0 |}).
Proof.
  apply (@reset_event_reconfigures_once Z 1 2). lia.
Defined.

(** * The worker task serves the queue in order *)

Section Order.
Context `{P : Platform}.

Lemma omap_delivery_turn (pre : list Action) (a : Action) :
  Forall bus_action pre -> omap delivery_time (pre ++ [a]) = omap delivery_time [a].
Proof.
  induction pre as [ | x pre IH]; intros H; [reflexivity | ].
  apply Forall_cons in H as [Hx Hpre]. cbn [app omap].
  destruct x; cbn in Hx; try contradiction; cbn; apply IH; exact Hpre.
Qed.

Lemma halTask_in_order (rs : list BusReply) :
  forall (s : Hal) (u : Sh2_t),
    (0 < SH2_UNITS)%N ->
    queue_for_unit0 s ->
    sh2 s !! 0%nat = Some u ->
    onRx u <> 0 ->
    i2cMutex s = false ->
    Forall answers rs ->
    (length rs <= length (evtQueue s))%nat ->
    exists tr s' u',
      halTask rs s = Done tr tt s'
      /\ omap delivery_time tr
         = map (fun e => wrap32 (t_ms e * 1000)) (take (length rs) (evtQueue s))
      /\ evtQueue s' = drop (length rs) (evtQueue s)
      /\ sh2 s' !! 0%nat = Some u' /\ onRx u' = onRx u /\ i2cMutex s' = false.
Proof.
  induction rs as [ | r rs IH]; intros s u Hu Hq Hl Hcb Hm Ha Hlen.
  - exists [], s, u. cbn [halTask length take map drop]. repeat split; auto.
  - apply Forall_cons in Ha as [Har Hars].
    unfold queue_for_unit0 in Hq.
    destruct (evtQueue s) as [ | e q] eqn:Heq; [cbn in Hlen; lia | ].
    apply Forall_cons in Hq as [[He Hid] Hq].
    assert (Hrecv : xQueueReceive s = Done [] e (set_evtQueue q s))
      by (unfold xQueueReceive; rewrite Heq; reflexivity).
    assert (Hle : sh2 (set_evtQueue q s) !! N.to_nat (unit e) = Some u)
      by (rewrite He; exact Hl).
    destruct (halTask_event_run e r (set_evtQueue q s) u
                ltac:(rewrite He; exact Hu) Hle Hid Hcb Hm Har)
      as (s1 & Hrun & Hsh1 & Hm1 & _ & Hq1).
    set (u1 := set_rxRemaining
                 (rxRemaining_of
                    (cargoLen_of
                       (if rc r =? 0
                        then store_rx (rxData r) (readLen_of (rxRemaining u)) (rxBuf u)
                        else rxBuf u)) (readLen_of (rxRemaining u)))
                 (set_rxBuf
                    (if rc r =? 0
                     then store_rx (rxData r) (readLen_of (rxRemaining u)) (rxBuf u)
                     else rxBuf u) u)) in *.
    assert (Hl1 : sh2 s1 !! 0%nat = Some u1).
    { rewrite Hsh1, He. cbn [sh2 set_evtQueue]. change (N.to_nat 0) with 0%nat.
      apply list_lookup_insert_eq. eapply lookup_lt_Some. exact Hl. }
    destruct (IH s1 u1 Hu) as (tr2 & s2 & u2 & Hrest & Htimes & Hq2 & Hl2 & Hcb2 & Hm2).
    + unfold queue_for_unit0. rewrite Hq1. exact Hq.
    + exact Hl1.
    + exact Hcb.
    + exact Hm1.
    + exact Hars.
    + rewrite Hq1. cbn [evtQueue set_evtQueue]. cbn [length] in Hlen. lia.
    + cbn [halTask]. unfold halTask_iter.
      rewrite (bind_Done _ _ _ _ _ _
                 (eq_trans (bind_Done_nil _ (fun event => halTask_event event r) _ _ _ Hrecv)
                    Hrun)).
      rewrite Hrest.
      eexists _, s2, u2. split; [reflexivity | ].
      rewrite Hq1 in Htimes, Hq2. cbn [evtQueue set_evtQueue] in Htimes, Hq2.
      repeat split; try assumption.
      cbn [length take map drop].
      rewrite omap_app. rewrite !app_assoc.
      rewrite omap_delivery_turn.
      * cbn [omap delivery_time]. rewrite Htimes. reflexivity.
      * destruct (i2cResetNeeded (set_evtQueue q s)); repeat constructor.
Qed.

End Order.

(** X17.  The worker task serves the queue in arrival order, one delivery
    per event.  With interrupt events for unit 0 queued, a callback
    registered for unit 0, the mutex free and bus replies that let each
    read come back, as many turns of the loop as there are replies (and
    no more than there are events) all return; the time stamps passed to
    the callback are those of the oldest events, in the order in which
    they were queued, and exactly these events have left the queue. *)
Theorem worker_delivers_in_order `{P : Platform}
    (rs : list BusReply) (s : Hal) (u : Sh2_t) :
  (0 < SH2_UNITS)%N ->
  queue_for_unit0 s ->
  sh2 s !! 0%nat = Some u ->
  onRx u <> 0 ->
  i2cMutex s = false ->
  Forall answers rs ->
  (length rs <= length (evtQueue s))%nat ->
  exists tr s',
    halTask rs s = Done tr tt s'
    /\ omap delivery_time tr
       = map (fun e => wrap32 (t_ms e * 1000)) (take (length rs) (evtQueue s))
    /\ evtQueue s' = drop (length rs) (evtQueue s).
Proof.
  intros Hu Hq Hl Hcb Hm Ha Hlen.
  destruct (halTask_in_order rs s u Hu Hq Hl Hcb Hm Ha Hlen)
    as (tr & s' & _ & Hrun & Htimes & Hq' & _).
  exists tr, s'. auto.
Qed.

(** Three interrupts at ticks 5, 6 and 9; two turns of the worker. *)
Lemma worker_delivers_in_order_witness :
  omap delivery_time
    (res_trace (@halTask nucleo [header20; refused]
                  (set_evtQueue [intn_at 5; intn_at 6; intn_at 9] ready)))
  = [5000; 6000].
Proof.
  destruct (@worker_delivers_in_order nucleo [header20; refused]
              (set_evtQueue [intn_at 5; intn_at 6; intn_at 9] ready) ready_unit)
    as (tr & s' & Hrun & Htimes & _).
  - reflexivity.
  - repeat constructor.
  - reflexivity.
  - vm_compute. congruence.
  - reflexivity.
  - constructor; [right; cbn; congruence | ].
    constructor; [left; cbn; lia | constructor].
  - cbn. lia.
  - rewrite Hrun. cbn [res_trace]. rewrite Htimes. reflexivity.
Defined.
